(** * The todo service of backend/app.py

    A shallow embedding of the five REST handlers of [backend/app.py]
    (list, get by id, create, update, delete) over an explicit table of
    rows, together with the part of Python's dynamic semantics that the
    handlers rely on: truthiness, [in], subscripting, [dict.get],
    [str.strip] and [isinstance(_, bool)] on values produced by the JSON
    parser.  [models.py], [database.py] and the libraries are not among the
    sources: what the handlers need of them is stated where it is used. *)

From Stdlib Require Import Floats DecimalString.
From stdpp Require Import gmap list sorting strings.

Set Warnings "-register-all".

(** ** Python values *)

Module Py.

(** A Python [str] is a sequence of Unicode code points. *)
Abbreviation str := (list N).

(** The values [json.loads] can produce: [None], [bool], [int], [float],
    [str], [list] and [dict].  A [dict] is kept as an association list that
    is read from the front. *)
Inductive json : Type :=
  | JNull
  | JBool (b : bool)
  | JInt (n : Z)
  | JFloat (x : float)
  | JStr (s : str)
  | JArr (l : list json)
  | JObj (d : list (str * json)).

(** The code points of a literal of the source text. *)
Definition lit (s : string) : str :=
  Ascii.N_of_ascii <$> String.list_ascii_of_string s.

(** The exceptions the handlers can meet.  [SQLAlchemyError] is the only
    one they tell apart from the rest.  [BadRequest] and
    [UnsupportedMediaType] are the HTTP exceptions of [request.get_json],
    [OverflowError] and [UnicodeEncodeError] those of the database driver
    when it is handed a value it cannot take. *)
Inductive exn : Type :=
  | SQLAlchemyError
  | AttributeError
  | TypeError
  | KeyError
  | BadRequest
  | UnsupportedMediaType
  | OverflowError
  | UnicodeEncodeError.

(** [bool(v)], as used by [not v] and [if v]. *)
Definition truthy (v : json) : bool :=
  match v with
  | JNull => false
  | JBool b => b
  | JInt n => negb (n =? 0)%Z
  | JFloat x => negb (PrimFloat.eqb x 0%float)
  | JStr s => match s with [] => false | _ => true end
  | JArr l => match l with [] => false | _ => true end
  | JObj d => match d with [] => false | _ => true end
  end.

(** [isinstance(v, bool)]; an [int] is not a [bool]. *)
Definition isinstance_bool (v : json) : bool :=
  match v with JBool _ => true | _ => false end.

(** *** Strings *)

(** The code points [str.strip()] removes (CPython's
    [_PyUnicode_IsWhitespace]). *)
Definition is_space (c : N) : bool :=
  ((9 <=? c) && (c <=? 13) || (28 <=? c) && (c <=? 32)
   || (c =? 133) || (c =? 160) || (c =? 5760)
   || (8192 <=? c) && (c <=? 8202)
   || (c =? 8232) || (c =? 8233) || (c =? 8239) || (c =? 8287)
   || (c =? 12288))%N.

Fixpoint lstrip (s : str) : str :=
  match s with
  | [] => []
  | c :: s' => if is_space c then lstrip s' else s
  end.

Definition rstrip (s : str) : str := reverse (lstrip (reverse s)).

(** [s.strip()] *)
Definition strip (s : str) : str := rstrip (lstrip s).

Fixpoint startswith (s p : str) : bool :=
  match p, s with
  | [], _ => true
  | a :: p', b :: s' => (a =? b)%N && startswith s' p'
  | _ :: _, [] => false
  end.

(** [p in s] for two strings: [p] occurs in [s]. *)
Fixpoint str_contains (p s : str) : bool :=
  startswith s p || match s with [] => false | _ :: s' => str_contains p s' end.

(** The code points that have no UTF-8 encoding: the surrogates
    U+D800 to U+DFFF, which a JSON text can bring in by an escape. *)
Definition is_surrogate (c : N) : bool := ((55296 <=? c) && (c <=? 57343))%N.

(** [s.encode('utf-8')] succeeds. *)
Definition encodable (s : str) : bool := forallb (λ c, negb (is_surrogate c)) s.

(** *** Dictionaries *)

Fixpoint dict_lookup (k : str) (d : list (str * json)) : option json :=
  match d with
  | [] => None
  | (k', v) :: d' => if decide (k = k') then Some v else dict_lookup k d'
  end.

(** [v == k] for a string [k]: only an equal string compares equal. *)
Definition eq_str (k : str) (v : json) : bool :=
  match v with JStr s => bool_decide (s = k) | _ => false end.

End Py.
Import Py.

(** ** Rows and the table *)

(** Modelled from the spec: the [Todo] model ([models.py] is not among the
    sources), with the five columns of the spec, which are the attributes
    the handlers and [test_app.py] name.  A [Todo] is the object of the
    session as well as the stored row.  On the object [completed] is the
    Python value [create_todo] found in the request; what is stored is
    decided by the column when the row is flushed (see [bind_completed]). *)
Record Todo : Type := mkTodo {
  id : N;
  title : str;
  description : str;
  completed : json;
  created_at : Z
}.

Definition set_title (s : str) (t : Todo) : Todo :=
  mkTodo (id t) s (description t) (completed t) (created_at t).
Definition set_description (s : str) (t : Todo) : Todo :=
  mkTodo (id t) (title t) s (completed t) (created_at t).
Definition set_completed (v : json) (t : Todo) : Todo :=
  mkTodo (id t) (title t) (description t) v (created_at t).

(** The committed table, by primary key. *)
Abbreviation table := (gmap N Todo).

(** Modelled from the spec: the key the store assigns on creation
    ([models.py] and the database are not among the sources): an integer
    not in use, here the largest key in use plus one. *)
Definition fresh_id (db : table) : N :=
  N.succ (foldr N.max 0%N ((map_to_list db).*1)).

(** The keys the database can hold are the integers below [2 ^ 63]. *)
Definition id_limit : N := 2 ^ 63.

(** What the database does during a request: it answers, or the
    [Todo.query] call of the handler raises [SQLAlchemyError], or its
    [db.session.commit()] does. *)
Inductive fault : Type := NoFault | QueryFault | CommitFault.

#[global] Instance fault_eq_dec : EqDecision fault.
Proof. solve_decision. Defined.

(** ** Responses *)

(** Modelled from the spec: [Todo.to_dict] ([models.py] is not among the
    sources) renders the five columns of a row; the envelope keeps the row
    itself. *)
Inductive payload : Type :=
  | One (t : Todo)
  | Many (l : list Todo).

(** The JSON object passed to [jsonify]: an absent key is [None]. *)
Record envelope : Type := mkEnvelope {
  success_key : option bool;
  data : option payload;
  count : option nat;
  message : option string;
  error : option string
}.

Record response : Type := mkResponse {
  body : envelope;
  status : N
}.

(** The flag as a client reads it, [body.get('success', False)]: every
    response of the five handlers has the key; the page of [internal_error]
    has not. *)
Definition success (e : envelope) : bool := default false (success_key e).

(** [jsonify({'success': False, 'error': msg}), code] *)
Definition failure (msg : string) (code : N) : response :=
  mkResponse (mkEnvelope (Some false) None None None (Some msg)) code.

(** [internal_error] (lines 23-27), the page Flask answers with when a
    handler lets an exception through: the session is rolled back and the
    body is [{'error': 'Internal server error'}]. *)
Definition internal_error : response :=
  mkResponse (mkEnvelope None None None None (Some "Internal server error")) 500.

(** [f'Todo with id {todo_id} not found'] *)
Definition not_found_message (todo_id : N) : string :=
  "Todo with id " +:+ NilEmpty.string_of_uint (N.to_uint todo_id) +:+ " not found".

(** ** Control flow inside a [try] block *)

(** A statement falls through with a value, returns a response, or
    raises. *)
Inductive flow (A : Type) : Type :=
  | Go (a : A)
  | Return (r : response)
  | Raise (e : exn).
Arguments Go {A} a.
Arguments Return {A} r.
Arguments Raise {A} e.

#[global] Instance flow_bind : MBind flow := λ A B k m,
  match m with
  | Go a => k a
  | Return r => Return r
  | Raise e => Raise e
  end.

(** *** Operations that may raise *)

(** [k in v] *)
Definition py_in (k : str) (v : json) : flow bool :=
  match v with
  | JObj d => Go (match dict_lookup k d with Some _ => true | None => false end)
  | JArr l => Go (existsb (eq_str k) l)
  | JStr s => Go (str_contains k s)
  | JNull | JBool _ | JInt _ | JFloat _ => Raise TypeError
  end.

(** [v[k]] for a string [k] *)
Definition py_getitem (v : json) (k : str) : flow json :=
  match v with
  | JObj d => match dict_lookup k d with Some x => Go x | None => Raise KeyError end
  | _ => Raise TypeError
  end.

(** [v.get(k, default)] *)
Definition py_get (v : json) (k : str) (dflt : json) : flow json :=
  match v with
  | JObj d => Go (default dflt (dict_lookup k d))
  | _ => Raise AttributeError
  end.

(** [v.strip()]: only a [str] has the method. *)
Definition py_strip (v : json) : flow str :=
  match v with
  | JStr s => Go (strip s)
  | _ => Raise AttributeError
  end.

(** ** The request body *)

(** What a request carries: nothing, text that is not JSON, or a JSON
    value. *)
Inductive request_body : Type :=
  | NoBody
  | Malformed
  | Json (j : json).

(** [request.get_json()] (Flask, not among the sources).  A body that is the
    JSON text [null] parses to [None].  A request without a JSON body and a
    body that does not parse make it raise an HTTP exception (415
    Unsupported Media Type, 400 Bad Request), which the handlers catch with
    every other exception. *)
Definition get_json (req : request_body) : flow json :=
  match req with
  | NoBody => Raise UnsupportedMediaType
  | Malformed => Raise BadRequest
  | Json j => Go j
  end.

(** ** The session *)

(** [Todo.query.get(todo_id)].  The route takes every decimal number, the
    database only the keys below [id_limit]: handed a larger one the driver
    raises [OverflowError], which is not an [SQLAlchemyError].  No row is
    stored under such a key, so a lookup that finds a row did not
    overflow. *)
Definition query_get (f : fault) (db : table) (todo_id : N) : flow (option Todo) :=
  match f with
  | QueryFault => Raise SQLAlchemyError
  | _ =>
      match db !! todo_id with
      | Some todo => Go (Some todo)
      | None =>
          if bool_decide (todo_id < id_limit)%N then Go None
          else Raise OverflowError
      end
  end.

(** [Todo.query.order_by(Todo.created_at.desc()).all()] *)
Definition newer_first (a b : Todo) : Prop := (created_at b ≤ created_at a)%Z.

#[global] Instance newer_first_dec a b : Decision (newer_first a b) :=
  Z_le_dec (created_at b) (created_at a).

Definition query_all_desc (f : fault) (db : table) : flow (list Todo) :=
  match f with
  | QueryFault => Raise SQLAlchemyError
  | _ => Go (merge_sort newer_first ((map_to_list db).*2))
  end.

(** [db.session.commit()] has two steps.  First the pending statement is
    flushed, which hands its values to the driver; a string with a
    surrogate cannot be encoded and raises [UnicodeEncodeError], which is
    not an [SQLAlchemyError]. *)
Definition bind_text (s : str) : flow unit :=
  if encodable s then Go () else Raise UnicodeEncodeError.

(** The UPDATE of a row binds the columns whose value has changed.
    [update_todo] assigns [completed] only after it has found it to be a
    [bool], so only the two strings can fail. *)
Definition flush_update (old new : Todo) : flow unit :=
  _ ← (if decide (title new = title old) then Go () else bind_text (title new));
  if decide (description new = description old) then Go ()
  else bind_text (description new).

(** Then the transaction is committed: the pending table [db'] becomes the
    committed one, unless the database fails.  The session lives for one
    request: what a handler assigned and did not commit is gone when it
    returns. *)
Definition commit (f : fault) (db' : table) : flow table :=
  match f with
  | CommitFault => Raise SQLAlchemyError
  | _ => Go db'
  end.

(** Modelled from the spec: the object [Todo(title=..., description=...,
    completed=...)] with the [id] and the [created_at] that the store
    assigns on creation ([models.py] is not among the sources): a key not
    in use and the time [now] of the request. *)
Definition new_row (db : table) (now : Z) (t d : str) (c : json) : Todo :=
  mkTodo (fresh_id db) t d c now.

(** ** The handlers *)

Definition ok_list (todos : list Todo) : response :=
  mkResponse (mkEnvelope (Some true) (Some (Many todos)) (Some (length todos)) None None) 200.

Definition ok_one (t : Todo) : response :=
  mkResponse (mkEnvelope (Some true) (Some (One t)) None None None) 200.

Definition ok_saved (t : Todo) (msg : string) (code : N) : response :=
  mkResponse (mkEnvelope (Some true) (Some (One t)) None (Some msg) None) code.

Definition ok_message (msg : string) : response :=
  mkResponse (mkEnvelope (Some true) None None (Some msg) None) 200.

(** [GET /api/todos] *)
Definition get_todos (f : fault) (db : table) : response :=
  match query_all_desc f db with
  | Go todos => ok_list todos
  | Return r => r
  | Raise SQLAlchemyError => failure "Database error occurred" 500
  | Raise _ => internal_error
  end.

(** [GET /api/todos/<int:todo_id>] *)
Definition get_todo (f : fault) (db : table) (todo_id : N) : response :=
  match query_get f db todo_id with
  | Go None => failure (not_found_message todo_id) 404
  | Go (Some todo) => ok_one todo
  | Return r => r
  | Raise SQLAlchemyError => failure "Database error occurred" 500
  | Raise _ => internal_error
  end.

(** *** The completed column *)

(** A column that refuses every value that is not a [bool]. *)
Definition refuses : json → option bool := λ _, None.

(** A column that takes the numbers [0] and [1] for [False] and [True] and
    refuses the rest. *)
Definition takes_bits : json → option bool := λ v,
  match v with
  | JInt 0 => Some false
  | JInt 1 => Some true
  | _ => None
  end.

Section Service.

(** Modelled from the spec: [completed] is a boolean column that holds no
    null ([models.py] is not among the sources).  A [bool] is stored as it
    is.  What the column does with any other value is not in the sources
    and is left open: it refuses the value ([None]), and the flush raises a
    [StatementError], which is an [SQLAlchemyError]; or it stores a boolean
    in its place. *)
Variable column : json → option bool.

Definition bind_completed (v : json) : flow bool :=
  match v with
  | JBool b => Go b
  | _ => match column v with Some b => Go b | None => Raise SQLAlchemyError end
  end.

(** The INSERT of a new row: the column processes [completed] first, then
    the driver takes the values; the result is the row as stored. *)
Definition flush_insert (todo : Todo) : flow Todo :=
  b ← bind_completed (completed todo);
  _ ← bind_text (title todo);
  _ ← bind_text (description todo);
  Go (set_completed (JBool b) todo).

(** The [try] block of [create_todo]. *)
Definition create_todo_try (f : fault) (now : Z) (db : table)
    (req : request_body) : flow (response * table) :=
  data ← get_json req;
  if negb (truthy data) then Return (failure "No data provided" 400) else
  t ← py_get data (lit "title") JNull;
  if negb (truthy t) then
    Return (failure "Title is required and cannot be empty" 400) else
  t ← py_get data (lit "title") JNull;
  s ← py_strip t;
  if negb (truthy (JStr s)) then
    Return (failure "Title is required and cannot be empty" 400) else
  t ← py_getitem data (lit "title");
  new_title ← py_strip t;
  d ← py_get data (lit "description") (JStr []);
  new_description ← py_strip d;
  new_completed ← py_get data (lit "completed") (JBool false);
  let todo := new_row db now new_title new_description new_completed in
  todo ← flush_insert todo;
  db' ← commit f (<[id todo := todo]> db);
  Go (ok_saved todo "Todo created successfully" 201, db').

(** [POST /api/todos] *)
Definition create_todo (f : fault) (now : Z) (db : table)
    (req : request_body) : response * table :=
  match create_todo_try f now db req with
  | Go out => out
  | Return r => (r, db)
  | Raise SQLAlchemyError => (failure "Failed to create todo" 500, db)
  | Raise _ => (failure "Invalid request data" 400, db)
  end.

(** The end of [create_todo] (lines 90-114) for a title, a description and
    a completed that have passed its checks. *)
Definition create_store (f : fault) (now : Z) (db : table) (t d : str)
    (c : json) : response * table :=
  match
    todo ← flush_insert (new_row db now t d c);
    db' ← commit f (<[id todo := todo]> db);
    Go (ok_saved todo "Todo created successfully" 201, db')
  with
  | Go out => out
  | Return r => (r, db)
  | Raise SQLAlchemyError => (failure "Failed to create todo" 500, db)
  | Raise _ => (failure "Invalid request data" 400, db)
  end.

(** Lines 135-141: [if 'title' in data: ...] *)
Definition update_title (data : json) (todo : Todo) : flow Todo :=
  present ← py_in (lit "title") data;
  if (present : bool) then
    v ← py_getitem data (lit "title");
    if negb (truthy v) then Return (failure "Title cannot be empty" 400) else
    v ← py_getitem data (lit "title");
    s ← py_strip v;
    if negb (truthy (JStr s)) then Return (failure "Title cannot be empty" 400) else
    v ← py_getitem data (lit "title");
    s ← py_strip v;
    Go (set_title s todo)
  else Go todo.

(** Lines 143-144: [if 'description' in data: ...] *)
Definition update_description (data : json) (todo : Todo) : flow Todo :=
  present ← py_in (lit "description") data;
  if (present : bool) then
    v ← py_getitem data (lit "description");
    if truthy v then
      v ← py_getitem data (lit "description");
      s ← py_strip v;
      Go (set_description s todo)
    else Go (set_description [] todo)
  else Go todo.

(** Lines 146-152: [if 'completed' in data: ...] *)
Definition update_completed (data : json) (todo : Todo) : flow Todo :=
  present ← py_in (lit "completed") data;
  if (present : bool) then
    v ← py_getitem data (lit "completed");
    if negb (isinstance_bool v) then
      Return (failure "Completed must be a boolean value" 400) else
    v ← py_getitem data (lit "completed");
    Go (set_completed v todo)
  else Go todo.

(** The [try] block of [update_todo]: [todo] is the row as the query found
    it, [changed] the object after the assignments. *)
Definition update_todo_try (f : fault) (db : table) (todo_id : N)
    (req : request_body) : flow (response * table) :=
  found ← query_get f db todo_id;
  match found with
  | None => Return (failure (not_found_message todo_id) 404)
  | Some todo =>
      data ← get_json req;
      if negb (truthy data) then Return (failure "No data provided" 400) else
      changed ← update_title data todo;
      changed ← update_description data changed;
      changed ← update_completed data changed;
      _ ← flush_update todo changed;
      db' ← commit f (<[todo_id := changed]> db);
      Go (ok_saved changed "Todo updated successfully" 200, db')
  end.

(** [PUT /api/todos/<int:todo_id>] *)
Definition update_todo (f : fault) (db : table) (todo_id : N)
    (req : request_body) : response * table :=
  match update_todo_try f db todo_id req with
  | Go out => out
  | Return r => (r, db)
  | Raise SQLAlchemyError => (failure "Failed to update todo" 500, db)
  | Raise _ => (failure "Invalid request data" 400, db)
  end.

(** The [try] block of [delete_todo]. *)
Definition delete_todo_try (f : fault) (db : table) (todo_id : N) :
    flow (response * table) :=
  found ← query_get f db todo_id;
  match found with
  | None => Return (failure (not_found_message todo_id) 404)
  | Some todo =>
      db' ← commit f (delete todo_id db);
      Go (ok_message "Todo deleted successfully", db')
  end.

(** [DELETE /api/todos/<int:todo_id>] *)
Definition delete_todo (f : fault) (db : table) (todo_id : N) : response * table :=
  match delete_todo_try f db todo_id with
  | Go out => out
  | Return r => (r, db)
  | Raise SQLAlchemyError => (failure "Failed to delete todo" 500, db)
  | Raise _ => (internal_error, db)
  end.

(** ** Requests and the service as a whole *)

Inductive request : Type :=
  | GetTodos
  | GetTodo (todo_id : N)
  | CreateTodo (req : request_body)
  | UpdateTodo (todo_id : N) (req : request_body)
  | DeleteTodo (todo_id : N).

(** One request served at time [now] while the database behaves as [f]. *)
Definition handle (f : fault) (now : Z) (db : table) (r : request) : response * table :=
  match r with
  | GetTodos => (get_todos f db, db)
  | GetTodo todo_id => (get_todo f db todo_id, db)
  | CreateTodo req => create_todo f now db req
  | UpdateTodo todo_id req => update_todo f db todo_id req
  | DeleteTodo todo_id => delete_todo f db todo_id
  end.

(** The tables the service can be in, starting from the empty one. *)
Inductive reachable : table → Prop :=
  | reachable_empty : reachable ∅
  | reachable_step f now db r :
      reachable db → reachable (handle f now db r).2.

(** ** Vocabulary of the statements *)

(** No white space at either end of a string. *)
Definition edge_is_space (o : option N) : bool :=
  match o with Some c => is_space c | None => false end.

Definition stripped (s : str) : Prop :=
  edge_is_space (head s) = false ∧ edge_is_space (last s) = false.

(** The value of field [k] of the request body, when the body is a JSON
    object that has the field. *)
Definition field_of (k : string) (req : request_body) : option json :=
  match req with
  | Json (JObj d) => dict_lookup (lit k) d
  | _ => None
  end.

(** What is kept of a description that was sent as [v]. *)
Definition stored_description (v : json) : str :=
  match v with JStr s => strip s | _ => [] end.

Definition text_stripped (t : Todo) : Prop :=
  stripped (title t) ∧ stripped (description t).

Definition has_data (e : envelope) : bool :=
  match data e with Some _ => true | None => false end.

Definition has_error (e : envelope) : bool :=
  match error e with Some _ => true | None => false end.

Definition is_delete (r : request) : bool :=
  match r with DeleteTodo _ => true | _ => false end.

(** The rows of a table all satisfy [P]. *)
Definition all_rows (P : Todo → Prop) (db : table) : Prop :=
  ∀ k t, db !! k = Some t → P t.

(** The condition the spec gives for create to answer 400: the body is
    missing, is not a JSON object, or its title is missing or empty after
    trimming (a title that is [null], [false], zero or an empty container
    is taken as empty). *)
Definition spec_create_rejects (req : request_body) : bool :=
  match req with
  | Json (JObj d) =>
      match dict_lookup (lit "title") d with
      | None => true
      | Some (JStr s) => bool_decide (strip s = [])
      | Some v => negb (truthy v)
      end
  | _ => true
  end.

(** A text field is usable when it is absent or a string. *)
Definition is_str (v : json) : bool :=
  match v with JStr _ => true | _ => false end.

(** The condition under which [create_todo] answers 400: the spec's, or a
    title that is not a string, or a description that is present and not a
    string. *)
Definition create_rejects (req : request_body) : bool :=
  spec_create_rejects req
  || negb (from_option is_str true (field_of "title" req))
  || negb (from_option is_str true (field_of "description" req)).

(** What create takes from a body that has passed its checks: the title
    and the description trimmed, an absent description as the empty string,
    an absent completed as [False]. *)
Definition sent_title (req : request_body) : str :=
  from_option stored_description [] (field_of "title" req).

Definition sent_description (req : request_body) : str :=
  from_option stored_description [] (field_of "description" req).

Definition sent_completed (req : request_body) : json :=
  default (JBool false) (field_of "completed" req).

(** The trimmed title and description can both be encoded. *)
Definition create_encodable (req : request_body) : bool :=
  encodable (sent_title req) && encodable (sent_description req).

(** The column stores the value, as it is or as a boolean in its place. *)
Definition column_takes (v : json) : bool :=
  match bind_completed v with Go _ => true | _ => false end.

(** ** Sample data, after the fixtures of test_app.py *)

Definition jstr (s : string) : json := JStr (lit s).

Definition obj (fields : list (string * json)) : request_body :=
  Json (JObj ((λ kv, (lit kv.1, kv.2)) <$> fields)).

(** A create request whose [completed] is the string ["yes"]. *)
Definition create_completed_yes : request_body :=
  obj [("title", jstr "x"); ("completed", jstr "yes")].

(** A create request whose [description] is the number [5]. *)
Definition create_description_5 : request_body :=
  obj [("title", jstr "x"); ("description", JInt 5)].

(** An update request with a good title and a [completed] that is a
    string. *)
Definition update_title_and_yes : request_body :=
  obj [("title", jstr "New"); ("completed", jstr "yes")].

(** The request of [test_create_todo_whitespace_trimming]. *)
Definition create_padded : request_body :=
  obj [("title", jstr "  Trimmed Title  ");
       ("description", jstr "  Trimmed Description  ")].

(** The two rows of [test_get_todos_ordered_by_date]. *)
Definition two_todos : table :=
  {[ 1%N := mkTodo 1 (lit "First Todo") [] (JBool false) 1;
     2%N := mkTodo 2 (lit "Second Todo") [] (JBool false) 2 ]}.

(** The [sample_todo] fixture. *)
Definition sample : table :=
  {[ 1%N := mkTodo 1 (lit "Test Todo") (lit "Test Description") (JBool false) 10 ]}.

(** ** Further vocabulary and sample requests *)

Definition is_create (r : request) : bool :=
  match r with CreateTodo _ => true | _ => false end.





(** None of the three field names is an element of the list. *)
Definition names_no_field (l : list json) : bool :=
  negb (existsb (eq_str (lit "title")) l)
  && negb (existsb (eq_str (lit "description")) l)
  && negb (existsb (eq_str (lit "completed")) l).

(** A run of the service: the requests are served one after the other,
    each at its own time and with its own behaviour of the database; the
    result is the log of requests and responses and the table at the end. *)
Fixpoint serve (db : table) (reqs : list (fault * Z * request)) :
    list (request * response) * table :=
  match reqs with
  | [] => ([], db)
  | (f, now, r) :: rest =>
      let out := handle f now db r in
      let run := serve out.2 rest in
      ((r, out.1) :: run.1, run.2)
  end.

(** An entry of the log that added a row, and one that removed a row. *)
Definition added (e : request * response) : bool :=
  bool_decide (status e.2 = 201%N).

Definition removed (e : request * response) : bool :=
  is_delete e.1 && success (body e.2).

Definition tally (p : request * response → bool) (log : list (request * response)) : nat :=
  length (filter (λ e, p e = true) log).

(** The five creates of [test_multiple_todos_management]. *)
Definition five_creates : list (fault * Z * request) :=
  (λ i : nat, (NoFault, Z.of_nat i,
               CreateTodo (obj [("title", jstr "Todo");
                                ("completed", JBool (Nat.even i))])))
  <$> seq 0 5.

(** A body with which [update_todo] reports an empty title: an object
    whose [title] is falsy or a string of white space. *)
Definition update_title_rejected (req : request_body) : bool :=
  match req with
  | Json (JObj d) =>
      match dict_lookup (lit "title") d with
      | None => false
      | Some (JStr s) => bool_decide (strip s = [])
      | Some v => negb (truthy v)
      end
  | _ => false
  end.

(** A body with which [update_todo] reports a [completed] that is not a
    boolean: an object whose [title], if any, is a string with more than
    white space, whose [description], if any, is falsy or a string, and
    whose [completed] is there and is not a [bool]. *)
Definition update_completed_rejected (req : request_body) : bool :=
  match req with
  | Json (JObj d) =>
      from_option
        (λ v, match v with
              | JStr s => negb (bool_decide (strip s = []))
              | _ => false
              end) true (dict_lookup (lit "title") d)
      && from_option (λ v, negb (truthy v) || is_str v) true
           (dict_lookup (lit "description") d)
      && from_option (λ v, negb (isinstance_bool v)) false
           (dict_lookup (lit "completed") d)
  | _ => false
  end.

Definition bool_completed (t : Todo) : Prop :=
  isinstance_bool (completed t) = true.

(** Every row is stored under its own [id]. *)
Definition rows_keyed (db : table) : Prop :=
  ∀ k t, db !! k = Some t → id t = k.

(** A title with something other than white space in it. *)
Definition title_present (t : Todo) : Prop := strip (title t) ≠ [].

(** The statuses of a success: 201 for create, 200 for the others. *)
Definition success_status (r : request) : N :=
  if is_create r then 201%N else 200%N.

(** The update of [test_full_crud_workflow]. *)
Definition mark_completed : request_body := obj [("completed", JBool true)].

(** The request of [test_create_todo_minimal_data]. *)
Definition create_minimal : request_body := obj [("title", jstr "Minimal Todo")].

(** An update whose [description] is [null]. *)
Definition clear_description : request_body := obj [("description", JNull)].

(** A create with a good title whose [description] is [null]. *)
Definition create_null_description : request_body :=
  obj [("title", jstr "x"); ("description", JNull)].

(** A body that is a JSON array. *)
Definition array_body : request_body := Json (JArr [JInt 1]).

(** The requests that are answered 500 by a database that is working: a
    get or a delete of an id that is not stored and that the database
    cannot look up, and a create that passes the checks of the handler with
    a [completed] the column refuses. *)
Definition fails_without_fault (db : table) (r : request) : bool :=
  match r with
  | GetTodo todo_id | DeleteTodo todo_id =>
      bool_decide (db !! todo_id = None) && bool_decide (id_limit ≤ todo_id)%N
  | CreateTodo req =>
      negb (create_rejects req) && negb (column_takes (sent_completed req))
  | GetTodos | UpdateTodo _ _ => false
  end.

(** A create whose [completed] is the number [1]. *)
Definition create_completed_1 : request_body :=
  obj [("title", jstr "x"); ("completed", JInt 1)].

(** The request of [test_update_todo_whitespace_trimming]. *)
Definition update_padded : request_body :=
  obj [("title", jstr "  Trimmed Update  ");
       ("description", jstr "  Trimmed Desc  ")].

(** The row of the [sample_todo] fixture. *)
Definition sample_row : Todo :=
  mkTodo 1 (lit "Test Todo") (lit "Test Description") (JBool false) 10.

(** * Properties *)

(** ** Strings *)

Lemma lstrip_head s : edge_is_space (head (lstrip s)) = false.
Proof.
  induction s as [|c s IH]; simpl; [done|].
  destruct (is_space c) eqn:Hc; [done|]. simpl. by rewrite Hc.
Qed.

Lemma lstrip_suffix s : lstrip s `suffix_of` s.
Proof.
  induction s as [|c s IH]; simpl; [done|].
  destruct (is_space c); [by apply suffix_cons_r | done].
Qed.

Lemma rstrip_last s : edge_is_space (last (rstrip s)) = false.
Proof. unfold rstrip. rewrite last_reverse. apply lstrip_head. Qed.

Lemma rstrip_head s :
  edge_is_space (head s) = false → edge_is_space (head (rstrip s)) = false.
Proof.
  intros Hs. unfold rstrip. rewrite head_reverse.
  destruct (lstrip_suffix (reverse s)) as [p Hp].
  destruct (lstrip (reverse s)) as [|c l] eqn:El using rev_ind; [done|].
  rewrite last_snoc. rewrite app_assoc in Hp.
  apply (f_equal last) in Hp. rewrite last_reverse, last_snoc in Hp.
  by rewrite Hp in Hs.
Qed.

Lemma strip_stripped s : stripped (strip s).
Proof.
  split; [apply rstrip_head, lstrip_head | apply rstrip_last].
Qed.

(** ** Python operations *)

Arguments lit : simpl never.
Arguments flush_update : simpl never.

Lemma py_in_cases k data :
  (∃ b, py_in k data = Go b) ∨ py_in k data = Raise TypeError.
Proof. destruct data; simpl; eauto. Qed.

Lemma py_getitem_cases data k :
  (∃ v, py_getitem data k = Go v)
  ∨ py_getitem data k = Raise TypeError ∨ py_getitem data k = Raise KeyError.
Proof. destruct data; simpl; eauto. destruct (dict_lookup k d); eauto. Qed.

Lemma py_in_getitem k data v :
  py_in k data = Go true → py_getitem data k = Go v →
  ∃ d, data = JObj d ∧ dict_lookup k d = Some v.
Proof.
  destruct data as [| | | | |l|d]; simpl; try done.
  intros _ Hv. exists d. split; [done|].
  destruct (dict_lookup k d); by simplify_eq.
Qed.

Lemma py_in_false_field k req data :
  get_json req = Go data → py_in (lit k) data = Go false → field_of k req = None.
Proof.
  destruct req as [| |j]; simpl; intros; simplify_eq; try done.
  destruct data as [| | | | |l|d]; simpl in *; try done.
  destruct (dict_lookup (lit k) d); by simplify_eq.
Qed.

Lemma py_getitem_field k req data v :
  get_json req = Go data → py_in (lit k) data = Go true →
  py_getitem data (lit k) = Go v → field_of k req = Some v.
Proof.
  intros Hreq Hin Hget.
  destruct (py_in_getitem _ _ _ Hin Hget) as (d & -> & Hd).
  destruct req; by simplify_eq/=.
Qed.

(** ** The assignments of update_todo, one field at a time *)

Lemma update_title_spec data todo :
  match update_title data todo with
  | Go todo' =>
      (py_in (lit "title") data = Go false ∧ todo' = todo)
      ∨ (∃ s, py_in (lit "title") data = Go true
              ∧ py_getitem data (lit "title") = Go (JStr s)
              ∧ strip s ≠ [] ∧ todo' = set_title (strip s) todo)
  | Return r => r = failure "Title cannot be empty" 400
  | Raise e => e ≠ SQLAlchemyError
  end.
Proof.
  unfold update_title.
  destruct (py_in_cases (lit "title") data) as [[[] Hin]|Hin]; rewrite Hin;
    simpl; [|by left|done].
  destruct (py_getitem_cases data (lit "title")) as [[v Hv]|[Hv|Hv]];
    rewrite Hv; simpl; [|done..].
  - destruct (truthy v) eqn:Ht; simpl; [|done].
    destruct v as [| | | |s| |]; simpl; try done.
    destruct (strip s) eqn:Hs; simpl; [done|].
    right. exists s. rewrite Hs. by eauto.
Qed.

Lemma update_description_spec data todo :
  match update_description data todo with
  | Go todo' =>
      (py_in (lit "description") data = Go false ∧ todo' = todo)
      ∨ (∃ v, py_in (lit "description") data = Go true
              ∧ py_getitem data (lit "description") = Go v
              ∧ ((truthy v = false ∧ todo' = set_description [] todo)
                 ∨ (∃ s, v = JStr s ∧ todo' = set_description (strip s) todo)))
  | Return r => False
  | Raise e => e ≠ SQLAlchemyError
  end.
Proof.
  unfold update_description.
  destruct (py_in_cases (lit "description") data) as [[[] Hin]|Hin]; rewrite Hin;
    simpl; [|by left|done].
  destruct (py_getitem_cases data (lit "description")) as [[v Hv]|[Hv|Hv]];
    rewrite Hv; simpl; [|done..].
  - destruct (truthy v) eqn:Ht; simpl; [|by eauto 10].
    destruct v as [| | | |s| |]; simpl; try done. by eauto 10.
Qed.

Lemma update_completed_spec data todo :
  match update_completed data todo with
  | Go todo' =>
      (py_in (lit "completed") data = Go false ∧ todo' = todo)
      ∨ (∃ b, py_in (lit "completed") data = Go true
              ∧ py_getitem data (lit "completed") = Go (JBool b)
              ∧ todo' = set_completed (JBool b) todo)
  | Return r => r = failure "Completed must be a boolean value" 400
  | Raise e => e ≠ SQLAlchemyError
  end.
Proof.
  unfold update_completed.
  destruct (py_in_cases (lit "completed") data) as [[[] Hin]|Hin]; rewrite Hin;
    simpl; [|by left|done].
  destruct (py_getitem_cases data (lit "completed")) as [[v Hv]|[Hv|Hv]];
    rewrite Hv; simpl; [|done..].
  - destruct v; simpl; try done. by eauto 10.
Qed.

(** ** What create_todo computes *)

Lemma truthy_obj_nil d : truthy (JObj d) = false → d = [].
Proof. by destruct d. Qed.

(** A request that passes every check of [create_todo]. *)
Lemma create_accepts_inv req :
  create_rejects req = false →
  ∃ d s dsc, req = Json (JObj d)
    ∧ dict_lookup (lit "title") d = Some (JStr s) ∧ strip s ≠ []
    ∧ default (JStr []) (dict_lookup (lit "description") d) = JStr dsc.
Proof.
  unfold create_rejects, spec_create_rejects, field_of.
  destruct req as [| |[| | | | | |d]]; try done.
  destruct (dict_lookup (lit "title") d) as [[| | | |s| |]|] eqn:Ht; simpl;
    rewrite ?orb_true_r; try done.
  case_bool_decide; [done|]. simpl.
  destruct (dict_lookup (lit "description") d) as [[| | | |dsc| |]|] eqn:Hd;
    simpl; try done; intros _; exists d, s; eexists; by rewrite Hd.
Qed.

Lemma create_todo_accepts f now db req :
  create_rejects req = false →
  ∃ d s dsc, req = Json (JObj d)
    ∧ dict_lookup (lit "title") d = Some (JStr s) ∧ strip s ≠ []
    ∧ default (JStr []) (dict_lookup (lit "description") d) = JStr dsc
    ∧ create_todo f now db req
      = create_store f now db (strip s) (strip dsc)
          (default (JBool false) (dict_lookup (lit "completed") d)).
Proof.
  intros (d & s & dsc & -> & Ht & Hs & Hd)%create_accepts_inv.
  exists d, s, dsc. do 4 (split; [done|]).
  assert (truthy (JObj d) = true) as Hd' by (by destruct d).
  unfold create_todo, create_todo_try, create_store.
  cbn -[truthy new_row flush_insert commit strip].
  rewrite Hd', Ht, Hd. cbn -[new_row flush_insert commit strip].
  destruct s as [|c s]; [done|]. simpl negb at 1. cbn iota.
  destruct (strip (c :: s)) eqn:Es; [done|]. done.
Qed.

Lemma bind_text_cases s :
  (encodable s = true ∧ bind_text s = Go ())
  ∨ (encodable s = false ∧ bind_text s = Raise UnicodeEncodeError).
Proof. unfold bind_text. destruct (encodable s); eauto. Qed.

(** What becomes of a row that create hands to the store. *)
Lemma create_store_cases f now db t d c :
  (bind_completed c = Raise SQLAlchemyError
   ∧ create_store f now db t d c = (failure "Failed to create todo" 500, db))
  ∨ (∃ b, bind_completed c = Go b
      ∧ ((encodable t && encodable d = false
          ∧ create_store f now db t d c = (failure "Invalid request data" 400, db))
         ∨ (encodable t && encodable d = true ∧ f = CommitFault
            ∧ create_store f now db t d c
              = (failure "Failed to create todo" 500, db))
         ∨ (encodable t && encodable d = true ∧ f ≠ CommitFault
            ∧ create_store f now db t d c
              = (ok_saved (new_row db now t d (JBool b))
                   "Todo created successfully" 201,
                 <[fresh_id db := new_row db now t d (JBool b)]> db)))).
Proof.
  unfold create_store, flush_insert. simpl completed. simpl title.
  simpl description.
  assert (bind_completed c = Raise SQLAlchemyError ∨ ∃ b, bind_completed c = Go b)
    as [Hc|[b Hc]].
  { unfold bind_completed. destruct c; eauto; destruct (column _); eauto. }
  { left. by rewrite Hc. }
  right. exists b. rewrite Hc. split; [done|]. simpl.
  destruct (bind_text_cases t) as [[Ht ->]|[Ht ->]]; rewrite Ht; simpl;
    [|by left].
  destruct (bind_text_cases d) as [[Hd ->]|[Hd ->]]; rewrite Hd; simpl;
    [|by left].
  right. destruct f; simpl; [right|right|left]; done.
Qed.

Lemma create_store_outcome f now db t d c :
  (∃ msg code, create_store f now db t d c = (failure msg code, db)
     ∧ (code = 400 ∨ code = 500)%N)
  ∨ (∃ b, bind_completed c = Go b
      ∧ encodable t = true ∧ encodable d = true ∧ f ≠ CommitFault
      ∧ create_store f now db t d c
        = (ok_saved (new_row db now t d (JBool b)) "Todo created successfully" 201,
           <[fresh_id db := new_row db now t d (JBool b)]> db)).
Proof.
  destruct (create_store_cases f now db t d c)
    as [[_ ->]|(b & Hb & [[_ ->]|[(_ & _ & ->)|(He & Hf & ->)]])]; eauto 10.
  right. exists b. apply andb_prop in He as [? ?]. done.
Qed.

Lemma create_todo_rejects f now db req :
  create_rejects req = true →
  ∃ msg, create_todo f now db req = (failure msg 400, db).
Proof.
  unfold create_rejects, spec_create_rejects, field_of, create_todo, create_todo_try.
  destruct req as [| |j]; simpl; [by eauto..|].
  destruct (truthy j) eqn:Hj; simpl; [|by eauto].
  destruct j as [| | | | | |d]; simpl; try by eauto.
  destruct (dict_lookup (lit "title") d) as [t|]; simpl; [|by eauto].
  destruct (truthy t) eqn:Ht; simpl; [|by eauto].
  destruct t as [| | | |s| |]; simpl; try by eauto.
  destruct (strip s) eqn:Es; simpl; [by eauto|].
  destruct (dict_lookup (lit "description") d) as [[| | | |dsc| |]|]; simpl;
    try done; by eauto.
Qed.

(** ** What update_todo computes *)

Lemma flush_update_cases old new :
  flush_update old new = Go () ∨ flush_update old new = Raise UnicodeEncodeError.
Proof.
  unfold flush_update.
  destruct (decide (title new = title old)); simpl;
    [|destruct (bind_text_cases (title new)) as [[_ ->]|[_ ->]]; simpl; eauto];
    (destruct (decide (description new = description old)); simpl; eauto;
     destruct (bind_text_cases (description new)) as [[_ ->]|[_ ->]]; eauto).
Qed.

Lemma query_get_cases f db todo_id :
  (f = QueryFault ∧ query_get f db todo_id = Raise SQLAlchemyError)
  ∨ (f ≠ QueryFault ∧ ∃ todo, db !! todo_id = Some todo
       ∧ query_get f db todo_id = Go (Some todo))
  ∨ (f ≠ QueryFault ∧ db !! todo_id = None ∧ (todo_id < id_limit)%N
       ∧ query_get f db todo_id = Go None)
  ∨ (f ≠ QueryFault ∧ db !! todo_id = None ∧ (id_limit ≤ todo_id)%N
       ∧ query_get f db todo_id = Raise OverflowError).
Proof.
  unfold query_get. destruct f; [|by left|];
    (right; destruct (db !! todo_id) as [todo|]; [left; by eauto|];
     right; case_bool_decide; [left|right]; repeat split; try done; lia).
Qed.

(** Either the request fails and the table is the one it was, or the three
    assignments went through one after the other and the result was
    committed. *)
Lemma update_todo_cases f db todo_id req :
  (∃ msg code, update_todo f db todo_id req = (failure msg code, db)
     ∧ (code = 400 ∨ code = 404 ∨ code = 500)%N)
  ∨ (∃ todo data t1 t2 t3,
       f = NoFault ∧ db !! todo_id = Some todo
       ∧ get_json req = Go data ∧ truthy data = true
       ∧ update_title data todo = Go t1
       ∧ update_description data t1 = Go t2
       ∧ update_completed data t2 = Go t3
       ∧ update_todo f db todo_id req =
           (ok_saved t3 "Todo updated successfully" 200, <[todo_id := t3]> db)).
Proof.
  unfold update_todo, update_todo_try.
  destruct (query_get_cases f db todo_id)
    as [[_ ->]|[(Hf & todo & Hdb & ->)|[(_ & _ & _ & ->)|(_ & _ & _ & ->)]]];
    simpl; try by eauto 10.
  destruct req as [| |data]; simpl; try by eauto 10.
  destruct (truthy data) eqn:Hdata; simpl; [|by eauto 10].
  pose proof (update_title_spec data todo) as H1.
  destruct (update_title data todo) as [t1|r|e] eqn:E1; simpl;
    [|subst; by eauto 10|destruct e; try congruence; by eauto 10].
  pose proof (update_description_spec data t1) as H2.
  destruct (update_description data t1) as [t2|r|e] eqn:E2; simpl;
    [|done|destruct e; try congruence; by eauto 10].
  pose proof (update_completed_spec data t2) as H3.
  destruct (update_completed data t2) as [t3|r|e] eqn:E3; simpl;
    [|subst; by eauto 10|destruct e; try congruence; by eauto 10].
  destruct (flush_update_cases todo t3) as [-> | ->]; simpl; [|by eauto 10].
  destruct f; simpl; try done; [|by eauto 10].
  right. exists todo, data, t1, t2, t3. by repeat split.
Qed.

(** The assignments leave [id] and [created_at] alone, and a field whose
    key the body does not have keeps its value. *)
Lemma update_title_frame data todo t1 :
  update_title data todo = Go t1 →
  id t1 = id todo ∧ created_at t1 = created_at todo
  ∧ description t1 = description todo ∧ completed t1 = completed todo
  ∧ (py_in (lit "title") data = Go false → title t1 = title todo).
Proof.
  intros H. pose proof (update_title_spec data todo) as Hs. rewrite H in Hs.
  destruct Hs as [[_ ->]|(s & Hin & _ & _ & ->)]; [done|].
  repeat split; try done. by rewrite Hin.
Qed.

Lemma update_description_frame data todo t1 :
  update_description data todo = Go t1 →
  id t1 = id todo ∧ created_at t1 = created_at todo
  ∧ title t1 = title todo ∧ completed t1 = completed todo
  ∧ (py_in (lit "description") data = Go false → description t1 = description todo).
Proof.
  intros H. pose proof (update_description_spec data todo) as Hs. rewrite H in Hs.
  destruct Hs as [[_ ->]|(v & Hin & _ & [[_ ->]|(s & _ & ->)])]; [done|..];
    (repeat split; try done; by rewrite Hin).
Qed.

Lemma update_completed_frame data todo t1 :
  update_completed data todo = Go t1 →
  id t1 = id todo ∧ created_at t1 = created_at todo
  ∧ title t1 = title todo ∧ description t1 = description todo
  ∧ (py_in (lit "completed") data = Go false → completed t1 = completed todo).
Proof.
  intros H. pose proof (update_completed_spec data todo) as Hs. rewrite H in Hs.
  destruct Hs as [[_ ->]|(b & Hin & _ & ->)]; [done|].
  repeat split; try done. by rewrite Hin.
Qed.

Lemma absent_title_kept req data todo t1 :
  get_json req = Go data → update_title data todo = Go t1 →
  field_of "title" req = None → title t1 = title todo.
Proof.
  intros Hreq H Habs. pose proof (update_title_spec data todo) as Hs.
  rewrite H in Hs. destruct Hs as [[_ ->]|(s & Hin & Hget & _)]; [done|].
  by rewrite (py_getitem_field _ _ _ _ Hreq Hin Hget) in Habs.
Qed.

Lemma absent_description_kept req data todo t1 :
  get_json req = Go data → update_description data todo = Go t1 →
  field_of "description" req = None → description t1 = description todo.
Proof.
  intros Hreq H Habs. pose proof (update_description_spec data todo) as Hs.
  rewrite H in Hs. destruct Hs as [[_ ->]|(v & Hin & Hget & _)]; [done|].
  by rewrite (py_getitem_field _ _ _ _ Hreq Hin Hget) in Habs.
Qed.

Lemma absent_completed_kept req data todo t1 :
  get_json req = Go data → update_completed data todo = Go t1 →
  field_of "completed" req = None → completed t1 = completed todo.
Proof.
  intros Hreq H Habs. pose proof (update_completed_spec data todo) as Hs.
  rewrite H in Hs. destruct Hs as [[_ ->]|(b & Hin & Hget & _)]; [done|].
  by rewrite (py_getitem_field _ _ _ _ Hreq Hin Hget) in Habs.
Qed.

(** ** Update: failures write nothing, successes write what was sent *)

(** C2: an update that ends in a 400 response leaves the table as it was;
    in particular the title, description and completed of the targeted
    todo are the stored ones from before the request. *)
Theorem update_400_changes_nothing f db todo_id req :
  status (update_todo f db todo_id req).1 = 400%N →
  (update_todo f db todo_id req).2 = db
  ∧ ∀ todo, db !! todo_id = Some todo →
      (update_todo f db todo_id req).2 !! todo_id = Some todo.
Proof.
  intros Hst.
  destruct (update_todo_cases f db todo_id req)
    as [(msg & code & -> & _)|(todo & data & t1 & t2 & t3 & H)]; [done|].
  destruct H as (_ & _ & _ & _ & _ & _ & _ & Heq). by rewrite Heq in Hst.
Qed.

(** C8: an update never changes the [id] or [created_at] of the targeted
    record nor any other record, and when it succeeds every field that the
    request body does not have keeps its stored value. *)
Theorem update_touches_only_sent_fields f db todo_id req todo :
  db !! todo_id = Some todo →
  ∃ todo',
    (update_todo f db todo_id req).2 !! todo_id = Some todo'
    ∧ id todo' = id todo ∧ created_at todo' = created_at todo
    ∧ (∀ k, k ≠ todo_id → (update_todo f db todo_id req).2 !! k = db !! k)
    ∧ (status (update_todo f db todo_id req).1 = 200%N →
         data (body (update_todo f db todo_id req).1) = Some (One todo')
         ∧ (field_of "title" req = None → title todo' = title todo)
         ∧ (field_of "description" req = None →
              description todo' = description todo)
         ∧ (field_of "completed" req = None →
              completed todo' = completed todo)).
Proof.
  intros Hdb.
  destruct (update_todo_cases f db todo_id req)
    as [(msg & code & -> & Hc)|(todo0 & data & t1 & t2 & t3 & H)].
  - exists todo. simpl. do 4 (split; [done|]).
    intros ->. by destruct Hc as [?|[?|?]].
  - destruct H as (_ & Hdb0 & Hreq & _ & H1 & H2 & H3 & ->). simpl.
    assert (todo0 = todo) as -> by congruence.
    destruct (update_title_frame _ _ _ H1) as (I1 & C1 & D1 & B1 & _).
    destruct (update_description_frame _ _ _ H2) as (I2 & C2 & T2 & B2 & _).
    destruct (update_completed_frame _ _ _ H3) as (I3 & C3 & T3 & D3 & _).
    exists t3. rewrite lookup_insert_eq. split; [done|].
    split; [congruence|]. split; [congruence|].
    split; [by intros k Hk; rewrite lookup_insert_ne|].
    intros _. split; [done|]. repeat split; intros Habs.
    + rewrite T3, T2. by eapply absent_title_kept.
    + rewrite D3, <- D1. by eapply absent_description_kept.
    + rewrite <- B1, <- B2. by eapply absent_completed_kept.
Qed.

(** C10, as the handler has it: when the lookup finds no row for the id,
    the body is not read.  For an id the database can hold, below [2 ^ 63],
    the answer is 404 whatever the body is; for a larger id the lookup
    itself raises and the answer is 400 'Invalid request data', again
    whatever the body is. *)
Theorem update_missing_id_is_404 f db todo_id req :
  f ≠ QueryFault → db !! todo_id = None →
  update_todo f db todo_id req
  = if bool_decide (todo_id < id_limit)%N
    then (failure (not_found_message todo_id) 404, db)
    else (failure "Invalid request data" 400, db).
Proof.
  intros Hf Hdb. unfold update_todo, update_todo_try, query_get.
  destruct f; simpl; rewrite ?Hdb; try done; by case_bool_decide.
Qed.

(** ** Delete and get *)

Lemma get_todo_missing f db todo_id :
  f ≠ QueryFault → db !! todo_id = None →
  get_todo f db todo_id
  = if bool_decide (todo_id < id_limit)%N
    then failure (not_found_message todo_id) 404
    else internal_error.
Proof.
  intros Hf Hdb. unfold get_todo, query_get.
  destruct f; simpl; rewrite ?Hdb; try done; by case_bool_decide.
Qed.

Lemma delete_todo_missing f db todo_id :
  f ≠ QueryFault → db !! todo_id = None →
  delete_todo f db todo_id
  = if bool_decide (todo_id < id_limit)%N
    then (failure (not_found_message todo_id) 404, db)
    else (internal_error, db).
Proof.
  intros Hf Hdb. unfold delete_todo, delete_todo_try, query_get.
  destruct f; simpl; rewrite ?Hdb; try done; by case_bool_decide.
Qed.

(** C9: deleting a stored id answers 200 and removes the row, and only that
    row; from then on a get and a second delete of the id answer 404.  (The
    ids of stored rows are below [2 ^ 63]; for any other the lookup raises
    and the answer is the 500 page.) *)
Theorem delete_then_404 db todo_id todo :
  db !! todo_id = Some todo →
  status (delete_todo NoFault db todo_id).1 = 200%N
  ∧ (delete_todo NoFault db todo_id).2 = delete todo_id db
  ∧ (delete_todo NoFault db todo_id).2 !! todo_id = None
  ∧ (∀ k, k ≠ todo_id → (delete_todo NoFault db todo_id).2 !! k = db !! k)
  ∧ ∀ f, f ≠ QueryFault →
      status (get_todo f (delete_todo NoFault db todo_id).2 todo_id)
      = (if bool_decide (todo_id < id_limit)%N then 404 else 500)%N
      ∧ status (delete_todo f (delete_todo NoFault db todo_id).2 todo_id).1
        = (if bool_decide (todo_id < id_limit)%N then 404 else 500)%N.
Proof.
  intros Hdb.
  assert (delete_todo NoFault db todo_id
          = (ok_message "Todo deleted successfully", delete todo_id db)) as ->.
  { unfold delete_todo, delete_todo_try. simpl. by rewrite Hdb. }
  simpl. split; [done|]. split; [done|].
  split; [apply lookup_delete_eq|].
  split; [by intros k Hk; apply lookup_delete_ne|].
  intros f Hf.
  rewrite get_todo_missing, delete_todo_missing by (done || apply lookup_delete_eq).
  by case_bool_decide.
Qed.

(** ** List *)

#[global] Instance newer_first_total : Total newer_first.
Proof. intros a b. unfold newer_first. lia. Qed.

#[global] Instance newer_first_trans : Transitive newer_first.
Proof. intros a b c. unfold newer_first. lia. Qed.

(** C5: unless the query fails, the list operation answers 200 with the
    stored rows, each exactly once, every row at least as new as all rows
    after it, and with [count] the number of rows returned. *)
Theorem get_todos_newest_first f db :
  f ≠ QueryFault →
  ∃ todos,
    get_todos f db = ok_list todos
    ∧ status (get_todos f db) = 200%N
    ∧ data (body (get_todos f db)) = Some (Many todos)
    ∧ count (body (get_todos f db)) = Some (length todos)
    ∧ todos ≡ₚ (map_to_list db).*2
    ∧ (∀ t, t ∈ todos ↔ ∃ k, db !! k = Some t)
    ∧ length todos = size db
    ∧ StronglySorted newer_first todos.
Proof.
  intros Hf. exists (merge_sort newer_first ((map_to_list db).*2)).
  assert (get_todos f db = ok_list (merge_sort newer_first ((map_to_list db).*2)))
    as -> by (by destruct f).
  do 4 (split; [done|]).
  split; [apply merge_sort_Permutation|].
  split; [|split].
  - intros t. rewrite merge_sort_Permutation, list_elem_of_fmap. split.
    + intros ([k t'] & -> & Hin). exists k. by apply elem_of_map_to_list.
    + intros [k Hk]. exists (k, t). split; [done|]. by apply elem_of_map_to_list.
  - by rewrite merge_sort_Permutation, length_fmap, length_map_to_list.
  - apply StronglySorted_merge_sort; apply _.
Qed.

(** ** The envelope *)

Lemma delete_todo_cases f db todo_id :
  (∃ msg code, delete_todo f db todo_id = (failure msg code, db))
  ∨ delete_todo f db todo_id = (internal_error, db)
  ∨ delete_todo f db todo_id
    = (ok_message "Todo deleted successfully", delete todo_id db).
Proof.
  unfold delete_todo, delete_todo_try.
  destruct (query_get_cases f db todo_id)
    as [[_ ->]|[(Hf & todo & Hdb & ->)|[(_ & _ & _ & ->)|(_ & _ & _ & ->)]]];
    simpl; eauto.
  destruct f; simpl; eauto.
Qed.

(** ** Create *)

Lemma key_le_max (k : N) (l : list N) : k ∈ l → (k ≤ foldr N.max 0 l)%N.
Proof.
  induction l as [|x l IH]; simpl; [by intros ?%elem_of_nil|].
  intros [->|Hk%IH]%elem_of_cons; lia.
Qed.

(** The key given to a new row is not in use. *)
Lemma fresh_id_fresh (db : table) : db !! fresh_id db = None.
Proof.
  destruct (db !! fresh_id db) as [t|] eqn:Hdb; [|done].
  assert (fresh_id db ∈ (map_to_list db).*1) as Hin.
  { apply list_elem_of_fmap. exists (fresh_id db, t).
    split; [done|]. by apply elem_of_map_to_list. }
  apply key_le_max in Hin. unfold fresh_id in Hin at 1. lia.
Qed.

(** Either create fails and the table is the one it was, or every check
    was passed, the column took [completed], the strings could be encoded
    and the commit went through. *)
Lemma create_todo_cases f now db req :
  (∃ msg code, create_todo f now db req = (failure msg code, db)
     ∧ (code = 400 ∨ code = 500)%N)
  ∨ (∃ d s dsc b,
       req = Json (JObj d)
       ∧ dict_lookup (lit "title") d = Some (JStr s) ∧ strip s ≠ []
       ∧ default (JStr []) (dict_lookup (lit "description") d) = JStr dsc
       ∧ bind_completed (default (JBool false) (dict_lookup (lit "completed") d))
         = Go b
       ∧ encodable (strip s) = true ∧ encodable (strip dsc) = true
       ∧ f ≠ CommitFault
       ∧ create_todo f now db req
         = (ok_saved (new_row db now (strip s) (strip dsc) (JBool b))
              "Todo created successfully" 201,
            <[fresh_id db := new_row db now (strip s) (strip dsc) (JBool b)]> db)).
Proof.
  destruct (create_rejects req) eqn:Hrej.
  - destruct (create_todo_rejects f now db req Hrej) as [msg ->]. eauto 10.
  - destruct (create_todo_accepts f now db req Hrej)
      as (d & s & dsc & -> & Ht & Hs & Hd & ->).
    destruct (create_store_outcome f now db (strip s) (strip dsc)
                (default (JBool false) (dict_lookup (lit "completed") d)))
      as [(msg & code & -> & Hc)|(b & Hb & H1 & H2 & Hf & ->)]; [by eauto 10|].
    right. exists d, s, dsc, b. by repeat split.
Qed.

(** C3, as the handlers have it: [error] is present exactly in the
    responses whose [success] is false, and [data] exactly in the successful
    responses of list, get, create and update; the successful response of
    delete carries neither, only [message]. *)
Theorem envelope_data_or_error f now db r :
  has_error (body (handle f now db r).1) = negb (success (body (handle f now db r).1))
  ∧ has_data (body (handle f now db r).1)
    = success (body (handle f now db r).1) && negb (is_delete r).
Proof.
  destruct r as [|todo_id|req|todo_id req|todo_id]; simpl.
  - unfold get_todos. by destruct f.
  - unfold get_todo.
    by destruct (query_get_cases f db todo_id)
      as [[_ ->]|[(Hf & todo & Hdb & ->)|[(_ & _ & _ & ->)|(_ & _ & _ & ->)]]].
  - by destruct (create_todo_cases f now db req)
      as [(msg & code & -> & _)|(d & s & dsc & b & H)];
      [|destruct H as (_ & _ & _ & _ & _ & _ & _ & _ & ->)].
  - destruct (update_todo_cases f db todo_id req)
      as [(msg & code & -> & _)|(todo & data & t1 & t2 & t3 & H)]; [done|].
    destruct H as (_ & _ & _ & _ & _ & _ & _ & ->). done.
  - by destruct (delete_todo_cases f db todo_id) as [(msg & code & ->)|[-> | ->]].
Qed.

(** C3 as worded fails on a successful delete: neither [data] nor [error]
    is in the response. *)
Lemma delete_success_has_neither_key :
  status (delete_todo NoFault sample 1).1 = 200%N
  ∧ success (body (delete_todo NoFault sample 1).1) = true
  ∧ data (body (delete_todo NoFault sample 1).1) = None
  ∧ error (body (delete_todo NoFault sample 1).1) = None.
Proof. by vm_compute. Qed.

(** ** A body that is JSON null, and no body *)

(** C4, as the handlers have it.  A body that is JSON [null] is answered
    400 'No data provided' by create, and by update when the target
    exists, and nothing is changed.  A request without a body is not
    answered the same: [get_json] raises, and the answer is 400
    'Invalid request data'.  An update to an id that is not stored (and
    that the database can look up) is answered 404 before the body is
    read, whether the body is [null] or absent. *)
Theorem null_body_is_no_data :
  (∀ f now db,
     create_todo f now db (Json JNull) = (failure "No data provided" 400, db)
     ∧ create_todo f now db NoBody = (failure "Invalid request data" 400, db))
  ∧ (∀ f db todo_id todo,
       f ≠ QueryFault → db !! todo_id = Some todo →
       update_todo f db todo_id (Json JNull) = (failure "No data provided" 400, db)
       ∧ update_todo f db todo_id NoBody
         = (failure "Invalid request data" 400, db))
  ∧ (∀ f db todo_id,
       f ≠ QueryFault → db !! todo_id = None → (todo_id < id_limit)%N →
       update_todo f db todo_id (Json JNull)
       = (failure (not_found_message todo_id) 404, db)
       ∧ update_todo f db todo_id NoBody
         = (failure (not_found_message todo_id) 404, db)).
Proof.
  split; [done|]. split.
  - intros f db todo_id todo Hf Hdb. unfold update_todo, update_todo_try, query_get.
    destruct f; simpl; rewrite ?Hdb; done.
  - intros f db todo_id Hf Hdb Hlt. unfold update_todo, update_todo_try, query_get.
    destruct f; simpl; rewrite ?Hdb; try done;
      by rewrite bool_decide_eq_true_2.
Qed.

(** C4 as worded fails for an update whose target does not exist: the
    answer is 404, not 400. *)
Lemma update_null_body_missing_id :
  status (update_todo NoFault ∅ 1 (Json JNull)).1 = 404%N
  ∧ error (body (update_todo NoFault ∅ 1 (Json JNull)).1)
    = Some "Todo with id 1 not found".
Proof. by vm_compute. Qed.

(** ** The outcome of create *)

(** C7, as the handler has it.  Create answers 400 exactly when the body
    is missing or not JSON, is not a JSON object, has a title that is
    missing, empty after trimming or not a string, has a description that
    is not a string, or, all this being in order and [completed] a value the
    column takes, when the trimmed title or description cannot be encoded.
    It answers 500 exactly when, the request being in order, the column
    refuses [completed] or the commit fails.  In both cases the table is
    unchanged.  Otherwise it answers 201 with the created record, stored
    under a new id, in which an absent description is the empty string and
    an absent completed is [False]. *)
Theorem create_todo_status f now db req :
  (status (create_todo f now db req).1 = 400%N
   ↔ create_rejects req
     || column_takes (sent_completed req) && negb (create_encodable req) = true)
  ∧ (status (create_todo f now db req).1 = 500%N
     ↔ negb (create_rejects req)
       && (negb (column_takes (sent_completed req))
           || create_encodable req && bool_decide (f = CommitFault)) = true)
  ∧ (status (create_todo f now db req).1 = 400%N
     ∨ status (create_todo f now db req).1 = 500%N →
     (create_todo f now db req).2 = db)
  ∧ (create_rejects req = false → column_takes (sent_completed req) = true →
     create_encodable req = true → f ≠ CommitFault →
       ∃ todo b,
         create_todo f now db req
         = (ok_saved todo "Todo created successfully" 201, <[id todo := todo]> db)
         ∧ db !! id todo = None
         ∧ title todo = sent_title req
         ∧ description todo = sent_description req
         ∧ completed todo = JBool b
         ∧ bind_completed (sent_completed req) = Go b
         ∧ (field_of "description" req = None → description todo = [])
         ∧ (field_of "completed" req = None → completed todo = JBool false)).
Proof.
  unfold column_takes, create_encodable, sent_completed, sent_title,
    sent_description.
  destruct (create_rejects req) eqn:Hrej.
  { destruct (create_todo_rejects f now db req Hrej) as [msg ->]. simpl.
    repeat split; try done. }
  destruct (create_todo_accepts f now db req Hrej)
    as (d & s & dsc & -> & Ht & Hs & Hd & ->). simpl field_of.
  rewrite Ht. simpl.
  assert (from_option stored_description [] (dict_lookup (lit "description") d)
          = strip dsc) as ->.
  { destruct (dict_lookup (lit "description") d) as [v|]; simpl in *;
      by simplify_eq. }
  destruct (create_store_cases f now db (strip s) (strip dsc)
              (default (JBool false) (dict_lookup (lit "completed") d)))
    as [[Hb ->]|(b & Hb & [[He ->]|[(He & -> & ->)|(He & Hf & ->)]])];
    rewrite Hb, ?He; simpl.
  - repeat split; try done; naive_solver.
  - repeat split; try done; naive_solver.
  - repeat split; try done; naive_solver.
  - rewrite bool_decide_eq_false_2 by done.
    split; [done|]. split; [done|]. split; [by intros [?|?]|].
    intros _ _ _ _.
    exists (new_row db now (strip s) (strip dsc) (JBool b)), b.
    split; [done|].
    split; [apply fresh_id_fresh|]. simpl. do 4 (split; [done|]).
    split; intros Habs.
    + rewrite Habs in Hd. by simplify_eq/=.
    + rewrite Habs in Hb. by simplify_eq/=.
Qed.

(** ** The completed flag *)

Lemma field_of_in k req v data :
  field_of k req = Some v → get_json req = Go data →
  py_in (lit k) data = Go true ∧ py_getitem data (lit k) = Go v.
Proof.
  destruct req as [| |[| | | | | |d]]; simpl; try done.
  intros Hk ?; simplify_eq. simpl. by rewrite Hk.
Qed.

(** Update has the check: a [completed] that is not a [bool] is never
    written. *)
Lemma update_todo_completed_checked f db todo_id req v :
  field_of "completed" req = Some v → isinstance_bool v = false →
  (update_todo f db todo_id req).2 = db.
Proof.
  intros Hv Hb.
  destruct (update_todo_cases f db todo_id req)
    as [(msg & code & -> & _)|(todo & data & t1 & t2 & t3 & H)]; [done|].
  destruct H as (_ & _ & Hreq & _ & _ & _ & H3 & _).
  destruct (field_of_in _ _ _ _ Hv Hreq) as [Hin Hget].
  pose proof (update_completed_spec data t2) as Hs. rewrite H3 in Hs.
  destruct Hs as [[? _]|(b & _ & ? & _)]; [congruence|].
  assert (v = JBool b) as -> by congruence. done.
Qed.

Lemma update_completed_bool data todo t1 :
  update_completed data todo = Go t1 → bool_completed todo → bool_completed t1.
Proof.
  intros H Hb. pose proof (update_completed_spec data todo) as Hs.
  rewrite H in Hs. by destruct Hs as [[_ ->]|(b & _ & _ & ->)].
Qed.

Lemma handle_bool_completed f now db r :
  all_rows bool_completed db → all_rows bool_completed (handle f now db r).2.
Proof.
  intros Hall. destruct r as [|todo_id|req|todo_id req|todo_id]; simpl; try done.
  - destruct (create_todo_cases f now db req)
      as [(msg & code & -> & _)|(d & s & dsc & b & H)]; [done|].
    destruct H as (_ & _ & _ & _ & _ & _ & _ & _ & ->). simpl.
    intros k t [[<- <-]|[_ Hk]]%lookup_insert_Some; [done|by eapply Hall].
  - destruct (update_todo_cases f db todo_id req)
      as [(msg & code & -> & _)|(todo & data & t1 & t2 & t3 & H)]; [done|].
    destruct H as (_ & Hdb & _ & _ & H1 & H2 & H3 & ->). simpl.
    intros k t [[<- <-]|[_ Hk]]%lookup_insert_Some; [|by eapply Hall].
    destruct (update_title_frame _ _ _ H1) as (_ & _ & _ & B1 & _).
    destruct (update_description_frame _ _ _ H2) as (_ & _ & _ & B2 & _).
    eapply update_completed_bool; [done|].
    unfold bool_completed. rewrite B2, B1. by eapply Hall.
  - destruct (delete_todo_cases f db todo_id) as [(msg & code & ->)|[-> | ->]];
      try done.
    simpl. intros k t [_ Hk]%lookup_delete_Some. by eapply Hall.
Qed.

Lemma reachable_bool_completed db : reachable db → all_rows bool_completed db.
Proof.
  induction 1 as [|f now db r _ IH]; [by intros k t ?|].
  by apply handle_bool_completed.
Qed.

(** C1, as the handlers and the column have it.  In every table the
    service can reach, [completed] is a boolean.  Update checks the value:
    one that is not a boolean is answered 400 and nothing is written.
    Create does not check it: the value goes to the store, where the column
    refuses it, and the answer is 500 with nothing stored, or stores a
    boolean in its place, and the answer is 201 with that boolean. *)
Theorem completed_is_boolean_in_store :
  (∀ db k todo,
     reachable db → db !! k = Some todo →
     isinstance_bool (completed todo) = true)
  ∧ (∀ f db todo_id todo v,
       f ≠ QueryFault → db !! todo_id = Some todo → isinstance_bool v = false →
       update_todo f db todo_id (Json (JObj [(lit "completed", v)]))
       = (failure "Completed must be a boolean value" 400, db))
  ∧ (∀ f db todo_id req v,
       field_of "completed" req = Some v → isinstance_bool v = false →
       (update_todo f db todo_id req).2 = db)
  ∧ (∀ f now db s v,
       strip s ≠ [] → isinstance_bool v = false →
       match column v with
       | None =>
           create_todo f now db
             (Json (JObj [(lit "title", JStr s); (lit "completed", v)]))
           = (failure "Failed to create todo" 500, db)
       | Some b =>
           encodable (strip s) = true → f ≠ CommitFault →
           create_todo f now db
             (Json (JObj [(lit "title", JStr s); (lit "completed", v)]))
           = (ok_saved (new_row db now (strip s) [] (JBool b))
                "Todo created successfully" 201,
              <[fresh_id db := new_row db now (strip s) [] (JBool b)]> db)
       end).
Proof.
  split; [|split; [|split]].
  - intros db k todo Hdb Hk. by apply (reachable_bool_completed db Hdb k).
  - intros f db todo_id todo v Hf Hdb Hv.
    unfold update_todo, update_todo_try, query_get.
    assert (dict_lookup (lit "title") [(lit "completed", v)] = None) as E1 by done.
    assert (dict_lookup (lit "description") [(lit "completed", v)] = None)
      as E2 by done.
    assert (dict_lookup (lit "completed") [(lit "completed", v)] = Some v)
      as E3 by done.
    destruct f; try done; cbn -[dict_lookup isinstance_bool]; rewrite Hdb;
      cbn -[dict_lookup isinstance_bool]; rewrite E1;
      cbn -[dict_lookup isinstance_bool]; rewrite E2;
      cbn -[dict_lookup isinstance_bool]; rewrite E3;
      cbn -[dict_lookup isinstance_bool]; by rewrite Hv.
  - intros f db todo_id req v. apply update_todo_completed_checked.
  - intros f now db s v Hs Hv.
    assert (create_rejects (Json (JObj [(lit "title", JStr s); (lit "completed", v)]))
            = false) as Hrej.
    { unfold create_rejects, spec_create_rejects, field_of.
      assert (dict_lookup (lit "title") [(lit "title", JStr s); (lit "completed", v)]
              = Some (JStr s)) as -> by done.
      assert (dict_lookup (lit "description")
                [(lit "title", JStr s); (lit "completed", v)] = None) as -> by done.
      simpl. by rewrite bool_decide_eq_false_2. }
    destruct (create_todo_accepts f now db _ Hrej)
      as (d & s' & dsc & Hreq & Ht & _ & Hd & ->).
    injection Hreq as <-.
    assert (s' = s) as -> by (vm_compute in Ht; congruence).
    assert (dsc = []) as -> by (vm_compute in Hd; congruence).
    assert (dict_lookup (lit "completed")
              [(lit "title", JStr s); (lit "completed", v)] = Some v) as -> by done.
    simpl default. change (strip []) with (@nil N).
    assert (bind_completed v
            = match column v with
              | Some b => Go b
              | None => Raise SQLAlchemyError
              end) as Hbc by (by destruct v).
    destruct (column v) as [b'|] eqn:Hcol.
    + intros He Hf.
      destruct (create_store_cases f now db (strip s) [] v)
        as [[Hb _]|(b & Hb & [[He' _]|[(_ & ? & _)|(_ & _ & ->)]])];
        rewrite Hbc in Hb; simplify_eq; try done.
      by rewrite He in He'.
    + destruct (create_store_cases f now db (strip s) [] v)
        as [[_ ->]|(b & Hb & _)]; [done|]. by rewrite Hbc in Hb.
Qed.

(** ** Trimming *)

Lemma stripped_nil : stripped [].
Proof. done. Qed.

Lemma update_title_stripped data todo t1 :
  update_title data todo = Go t1 → text_stripped todo → text_stripped t1.
Proof.
  intros H [Ht Hd]. pose proof (update_title_spec data todo) as Hs.
  rewrite H in Hs. destruct Hs as [[_ ->]|(s & _ & _ & _ & ->)]; [done|].
  split; [apply strip_stripped|done].
Qed.

Lemma update_description_stripped data todo t1 :
  update_description data todo = Go t1 → text_stripped todo → text_stripped t1.
Proof.
  intros H [Ht Hd]. pose proof (update_description_spec data todo) as Hs.
  rewrite H in Hs.
  destruct Hs as [[_ ->]|(v & _ & _ & [[_ ->]|(s & _ & ->)])]; [done|done|].
  split; [done|apply strip_stripped].
Qed.

Lemma update_completed_stripped data todo t1 :
  update_completed data todo = Go t1 → text_stripped todo → text_stripped t1.
Proof.
  intros H [Ht Hd]. pose proof (update_completed_spec data todo) as Hs.
  rewrite H in Hs. by destruct Hs as [[_ ->]|(b & _ & _ & ->)].
Qed.

Lemma handle_text_stripped f now db r :
  all_rows text_stripped db → all_rows text_stripped (handle f now db r).2.
Proof.
  intros Hall. destruct r as [|todo_id|req|todo_id req|todo_id]; simpl; try done.
  - destruct (create_todo_cases f now db req)
      as [(msg & code & -> & _)|(d & s & dsc & b & H)]; [done|].
    destruct H as (_ & _ & _ & _ & _ & _ & _ & _ & ->). simpl.
    intros k t [[<- <-]|[_ Hk]]%lookup_insert_Some; [|by eapply Hall].
    split; apply strip_stripped.
  - destruct (update_todo_cases f db todo_id req)
      as [(msg & code & -> & _)|(todo & data & t1 & t2 & t3 & H)]; [done|].
    destruct H as (_ & Hdb & _ & _ & H1 & H2 & H3 & ->). simpl.
    intros k t [[<- <-]|[_ Hk]]%lookup_insert_Some; [|by eapply Hall].
    eapply update_completed_stripped, update_description_stripped,
      update_title_stripped, Hall; eauto.
  - destruct (delete_todo_cases f db todo_id) as [(msg & code & ->)|[-> | ->]];
      try done.
    simpl. intros k t [_ Hk]%lookup_delete_Some. by eapply Hall.
Qed.

Lemma reachable_text_stripped db : reachable db → all_rows text_stripped db.
Proof.
  induction 1 as [|f now db r _ IH]; [by intros k t ?|].
  by apply handle_text_stripped.
Qed.

Lemma flush_update_encodable old new :
  (title new = title old ∨ encodable (title new) = true) →
  (description new = description old ∨ encodable (description new) = true) →
  flush_update old new = Go ().
Proof.
  intros Ht Hd. unfold flush_update, bind_text.
  destruct (decide (title new = title old)) as [|Hnt]; simpl;
    [|destruct Ht as [?| ->]; [done|]; simpl];
    (destruct (decide (description new = description old)) as [|Hnd]; [done|];
     by destruct Hd as [?| ->]).
Qed.

(** An update that sends a title and a description, both strings. *)
Lemma update_todo_two_texts db todo_id todo s dsc :
  db !! todo_id = Some todo → strip s ≠ [] →
  encodable (strip s) = true → encodable (strip dsc) = true →
  update_todo NoFault db todo_id
    (Json (JObj [(lit "title", JStr s); (lit "description", JStr dsc)]))
  = (ok_saved (set_description (strip dsc) (set_title (strip s) todo))
       "Todo updated successfully" 200,
     <[todo_id := set_description (strip dsc) (set_title (strip s) todo)]> db).
Proof.
  intros Hdb Hs Es Ed.
  set (d := [(lit "title", JStr s); (lit "description", JStr dsc)]).
  assert (dict_lookup (lit "title") d = Some (JStr s)) as E1 by done.
  assert (dict_lookup (lit "description") d = Some (JStr dsc)) as E2 by done.
  assert (dict_lookup (lit "completed") d = None) as E3 by done.
  assert (truthy (JObj d) = true) as E0 by done.
  assert (update_title (JObj d) todo = Go (set_title (strip s) todo)) as H1.
  { unfold update_title. cbn -[dict_lookup strip]. rewrite E1.
    cbn -[dict_lookup strip]. destruct s as [|c s]; [done|].
    cbn -[dict_lookup strip]. by destruct (strip (c :: s)) eqn:E. }
  assert (∀ t, update_description (JObj d) t = Go (set_description (strip dsc) t))
    as H2.
  { intros t. unfold update_description. cbn -[dict_lookup strip]. rewrite E2.
    cbn -[dict_lookup strip]. by destruct dsc. }
  assert (∀ t, update_completed (JObj d) t = Go t) as H3.
  { intros t. unfold update_completed. cbn -[dict_lookup]. by rewrite E3. }
  unfold update_todo, update_todo_try, query_get. rewrite Hdb.
  cbn -[update_title update_description update_completed flush_update truthy].
  rewrite E0, H1.
  cbn -[update_title update_description update_completed flush_update truthy].
  rewrite H2.
  cbn -[update_title update_description update_completed flush_update truthy].
  rewrite H3.
  cbn -[update_title update_description update_completed flush_update truthy].
  rewrite flush_update_encodable; [done|by right..].
Qed.

(** A create that sends a title and a description, both strings. *)
Lemma create_todo_two_texts f now db s dsc :
  f ≠ CommitFault → strip s ≠ [] →
  encodable (strip s) = true → encodable (strip dsc) = true →
  create_todo f now db
    (Json (JObj [(lit "title", JStr s); (lit "description", JStr dsc)]))
  = (ok_saved (new_row db now (strip s) (strip dsc) (JBool false))
       "Todo created successfully" 201,
     <[fresh_id db := new_row db now (strip s) (strip dsc) (JBool false)]> db).
Proof.
  intros Hf Hs Es Ed.
  assert (create_rejects
            (Json (JObj [(lit "title", JStr s); (lit "description", JStr dsc)]))
          = false) as Hrej.
  { unfold create_rejects, spec_create_rejects, field_of.
    assert (dict_lookup (lit "title")
              [(lit "title", JStr s); (lit "description", JStr dsc)]
            = Some (JStr s)) as -> by done.
    assert (dict_lookup (lit "description")
              [(lit "title", JStr s); (lit "description", JStr dsc)]
            = Some (JStr dsc)) as -> by done.
    simpl. by rewrite bool_decide_eq_false_2. }
  destruct (create_todo_accepts f now db _ Hrej)
    as (d & s' & dsc' & Hreq & Ht & _ & Hd & ->).
  injection Hreq as <-.
  assert (s' = s) as -> by (vm_compute in Ht; congruence).
  assert (dsc' = dsc) as -> by (vm_compute in Hd; congruence).
  assert (dict_lookup (lit "completed")
            [(lit "title", JStr s); (lit "description", JStr dsc)] = None)
    as -> by done.
  simpl default.
  destruct (create_store_cases f now db (strip s) (strip dsc) (JBool false))
    as [[Hb _]|(b & Hb & [[He _]|[(_ & ? & _)|(_ & _ & ->)]])];
    simpl in Hb; simplify_eq; try done.
  by rewrite Es, Ed in He.
Qed.

(** C6: create and update store the title and the description with the
    white space at both ends removed, and test the title for emptiness
    after removing it; hence in every table the service can reach no title
    and no description starts or ends with white space.  A create and an
    update that send a title and a description go through, unless the
    commit fails or a trimmed string cannot be encoded, and store the two
    strings trimmed. *)
Theorem text_is_stripped_on_write :
  (∀ f now db req,
     status (create_todo f now db req).1 = 201%N →
     ∃ s todo,
       field_of "title" req = Some (JStr s) ∧ strip s ≠ []
       ∧ create_todo f now db req
         = (ok_saved todo "Todo created successfully" 201, <[id todo := todo]> db)
       ∧ title todo = strip s
       ∧ description todo
         = from_option stored_description [] (field_of "description" req))
  ∧ (∀ f now db req s,
       field_of "title" req = Some (JStr s) → strip s = [] →
       create_todo f now db req
       = (failure "Title is required and cannot be empty" 400, db))
  ∧ (∀ f db todo_id req,
       status (update_todo f db todo_id req).1 = 200%N →
       ∃ todo,
         (update_todo f db todo_id req).2 !! todo_id = Some todo
         ∧ (∀ v, field_of "title" req = Some v →
              ∃ s, v = JStr s ∧ strip s ≠ [] ∧ title todo = strip s)
         ∧ (∀ v, field_of "description" req = Some v →
              description todo = stored_description v))
  ∧ (∀ f db todo_id todo req s,
       f ≠ QueryFault → db !! todo_id = Some todo →
       field_of "title" req = Some (JStr s) → strip s = [] →
       update_todo f db todo_id req = (failure "Title cannot be empty" 400, db))
  ∧ (∀ db k todo,
       reachable db → db !! k = Some todo →
       stripped (title todo) ∧ stripped (description todo))
  ∧ (∀ f now db s dsc,
       f ≠ CommitFault → strip s ≠ [] →
       encodable (strip s) = true → encodable (strip dsc) = true →
       ∃ todo,
         create_todo f now db
           (Json (JObj [(lit "title", JStr s); (lit "description", JStr dsc)]))
         = (ok_saved todo "Todo created successfully" 201, <[id todo := todo]> db)
         ∧ db !! id todo = None
         ∧ title todo = strip s ∧ description todo = strip dsc)
  ∧ (∀ db todo_id todo s dsc,
       db !! todo_id = Some todo → strip s ≠ [] →
       encodable (strip s) = true → encodable (strip dsc) = true →
       ∃ todo',
         update_todo NoFault db todo_id
           (Json (JObj [(lit "title", JStr s); (lit "description", JStr dsc)]))
         = (ok_saved todo' "Todo updated successfully" 200, <[todo_id := todo']> db)
         ∧ title todo' = strip s ∧ description todo' = strip dsc
         ∧ id todo' = id todo ∧ completed todo' = completed todo
         ∧ created_at todo' = created_at todo).
Proof.
  split; [|split; [|split; [|split; [|split; [|split]]]]].
  - intros f now db req Hst.
    destruct (create_todo_cases f now db req)
      as [(msg & code & Heq & Hc)|(d & s & dsc & b & H)].
    { rewrite Heq in Hst. simpl in Hst. by destruct Hc; subst. }
    destruct H as (-> & Ht & Hs & Hd & _ & _ & _ & _ & ->).
    exists s, (new_row db now (strip s) (strip dsc) (JBool b)).
    do 3 (split; [done|]). split; [done|]. simpl.
    destruct (dict_lookup (lit "description") d) as [v|]; simpl in *;
      by simplify_eq.
  - intros f now db req s Ht Hs.
    destruct req as [| |[| | | | | |d]]; simpl in Ht; try done.
    assert (truthy (JObj d) = true) as Hd by (by destruct d).
    unfold create_todo, create_todo_try. cbn -[truthy].
    rewrite Hd, Ht. cbn -[strip]. destruct s; [done|]. cbn -[strip]. by rewrite Hs.
  - intros f db todo_id req Hst.
    destruct (update_todo_cases f db todo_id req)
      as [(msg & code & Heq & Hc)|(todo & data & t1 & t2 & t3 & H)].
    { rewrite Heq in Hst. simpl in Hst. by destruct Hc as [?|[?|?]]; subst. }
    destruct H as (_ & Hdb & Hreq & _ & H1 & H2 & H3 & ->). simpl.
    exists t3. rewrite lookup_insert_eq. split; [done|].
    destruct (update_description_frame _ _ _ H2) as (_ & _ & T2 & _).
    destruct (update_completed_frame _ _ _ H3) as (_ & _ & T3 & D3 & _).
    split; intros v Hv; destruct (field_of_in _ _ _ _ Hv Hreq) as [Hin Hget].
    + pose proof (update_title_spec data todo) as Hs. rewrite H1 in Hs.
      destruct Hs as [[? _]|(s & _ & ? & ? & ->)]; [congruence|].
      exists s. rewrite T3, T2. split; [congruence|done].
    + pose proof (update_description_spec data t1) as Hs. rewrite H2 in Hs.
      destruct Hs as [[? _]|(v' & _ & ? & Hs)]; [congruence|].
      assert (v' = v) as -> by congruence. rewrite D3.
      destruct Hs as [[Hv' ->]|(s & -> & ->)]; [|done].
      by destruct v as [| | | |[|]| |].
  - intros f db todo_id todo req s Hf Hdb Ht Hs.
    destruct req as [| |[| | | | | |d]]; simpl in Ht; try done.
    assert (truthy (JObj d) = true) as Hd by (by destruct d).
    unfold update_todo, update_todo_try, update_title, query_get.
    destruct f; try done; cbn -[truthy]; rewrite Hdb; cbn -[truthy];
      rewrite Hd, Ht; cbn -[strip]; (destruct s; [done|]); cbn -[strip];
      by rewrite Hs.
  - intros db k todo Hdb Hk. by apply (reachable_text_stripped db Hdb k).
  - intros f now db s dsc Hf Hs Es Ed.
    exists (new_row db now (strip s) (strip dsc) (JBool false)).
    split; [by apply create_todo_two_texts|].
    split; [apply fresh_id_fresh|done].
  - intros db todo_id todo s dsc Hdb Hs Es Ed.
    exists (set_description (strip dsc) (set_title (strip s) todo)).
    split; [by apply update_todo_two_texts|done].
Qed.


(** * Further properties of the handlers *)

(** ** Outcomes of one request *)

(** Closes a goal by going through the status codes a failure can have. *)
Ltac by_codes Hc :=
  repeat destruct Hc as [Hc|Hc]; subst; solve [eauto | done | lia].

Lemma get_todo_cases f db todo_id :
  (∃ msg code, get_todo f db todo_id = failure msg code
     ∧ (code = 404 ∨ code = 500)%N)
  ∨ get_todo f db todo_id = internal_error
  ∨ (∃ todo, db !! todo_id = Some todo ∧ get_todo f db todo_id = ok_one todo).
Proof.
  unfold get_todo.
  destruct (query_get_cases f db todo_id)
    as [[_ ->]|[(Hf & todo & Hdb & ->)|[(_ & _ & _ & ->)|(_ & _ & _ & ->)]]];
    simpl; eauto 10.
Qed.

Lemma delete_todo_outcome f db todo_id :
  (∃ msg code, delete_todo f db todo_id = (failure msg code, db)
     ∧ (code = 404 ∨ code = 500)%N)
  ∨ delete_todo f db todo_id = (internal_error, db)
  ∨ (is_Some (db !! todo_id)
     ∧ delete_todo f db todo_id
       = (ok_message "Todo deleted successfully", delete todo_id db)).
Proof.
  unfold delete_todo, delete_todo_try.
  destruct (query_get_cases f db todo_id)
    as [[_ ->]|[(Hf & todo & Hdb & ->)|[(_ & _ & _ & ->)|(_ & _ & _ & ->)]]];
    simpl; eauto 10.
  destruct f; simpl; eauto 10.
Qed.

Lemma create_todo_outcome f now db req :
  (∃ msg code, create_todo f now db req = (failure msg code, db)
     ∧ (code = 400 ∨ code = 500)%N)
  ∨ (∃ todo, db !! id todo = None ∧ created_at todo = now
       ∧ create_todo f now db req
         = (ok_saved todo "Todo created successfully" 201, <[id todo := todo]> db)).
Proof.
  destruct (create_todo_cases f now db req)
    as [?|(d & s & dsc & b & H)]; [by left|].
  destruct H as (_ & _ & _ & _ & _ & _ & _ & _ & ->). right.
  exists (new_row db now (strip s) (strip dsc) (JBool b)).
  split; [apply fresh_id_fresh|done].
Qed.

(** X1: the status code tells the outcome.  A response whose [success] is
    true has status 201 when it answers a create and 200 otherwise; a
    response whose [success] is false has status 400, 404 or 500. *)
Theorem status_follows_success f now db r :
  (success (body (handle f now db r).1) = true →
     status (handle f now db r).1 = success_status r)
  ∧ (success (body (handle f now db r).1) = false →
       status (handle f now db r).1 = 400%N
       ∨ status (handle f now db r).1 = 404%N
       ∨ status (handle f now db r).1 = 500%N).
Proof.
  destruct r as [|todo_id|req|todo_id req|todo_id]; simpl.
  - unfold get_todos. destruct f; simpl; split; intros; try done; eauto.
  - destruct (get_todo_cases f db todo_id)
      as [(msg & code & -> & Hc)|[->|(todo & _ & ->)]]; simpl; split; intros;
      try done; [by_codes Hc|by eauto].
  - destruct (create_todo_outcome f now db req)
      as [(msg & code & -> & Hc)|(todo & _ & _ & ->)]; simpl; split; intros;
      try done; by_codes Hc.
  - destruct (update_todo_cases f db todo_id req)
      as [(msg & code & -> & Hc)|(todo & data & t1 & t2 & t3 & H)].
    + simpl; split; intros; try done; by_codes Hc.
    + destruct H as (_ & _ & _ & _ & _ & _ & _ & ->). by split.
  - destruct (delete_todo_outcome f db todo_id)
      as [(msg & code & -> & Hc)|[->|(_ & ->)]]; simpl; split; intros;
      try done; [by_codes Hc|by eauto].
Qed.

(** X2: a request that is answered with [success] false leaves the table
    as it was, whichever handler served it and whatever went wrong
    (validation, missing id, or the database raising). *)
Theorem failed_request_keeps_table f now db r :
  success (body (handle f now db r).1) = false → (handle f now db r).2 = db.
Proof.
  destruct r as [|todo_id|req|todo_id req|todo_id]; simpl; try done.
  - by destruct (create_todo_outcome f now db req)
      as [(msg & code & -> & Hc)|(todo & _ & _ & ->)].
  - destruct (update_todo_cases f db todo_id req)
      as [(msg & code & -> & Hc)|(todo & data & t1 & t2 & t3 & H)]; [done|].
    by destruct H as (_ & _ & _ & _ & _ & _ & _ & ->).
  - by destruct (delete_todo_outcome f db todo_id)
      as [(msg & code & -> & Hc)|[->|(_ & ->)]].
Qed.

Lemma handle_row_balance f now db r :
  (size (handle f now db r).2 + (if removed (r, (handle f now db r).1) then 1 else 0)
   = size db + (if added (r, (handle f now db r).1) then 1 else 0))%nat.
Proof.
  unfold removed, added.
  destruct r as [|todo_id|req|todo_id req|todo_id]; simpl.
  - unfold get_todos. destruct f; simpl; lia.
  - destruct (get_todo_cases f db todo_id)
      as [(msg & code & -> & Hc)|[->|(todo & _ & ->)]]; simpl; [|lia..].
    case_bool_decide; [by_codes Hc|lia].
  - destruct (create_todo_outcome f now db req)
      as [(msg & code & -> & Hc)|(todo & Hfresh & _ & ->)]; simpl.
    + case_bool_decide; [by_codes Hc|lia].
    + rewrite map_size_insert_None by done. lia.
  - destruct (update_todo_cases f db todo_id req)
      as [(msg & code & -> & Hc)|(todo & data & t1 & t2 & t3 & H)]; simpl.
    + case_bool_decide; [by_codes Hc|lia].
    + destruct H as (_ & Hdb & _ & _ & _ & _ & _ & ->). simpl.
      rewrite map_size_insert_Some by eauto. lia.
  - destruct (delete_todo_outcome f db todo_id)
      as [(msg & code & -> & Hc)|[->|(Hdb & ->)]]; simpl.
    + case_bool_decide; [by_codes Hc|lia].
    + lia.
    + rewrite map_size_delete_Some by done.
      destruct Hdb as [t Hdb]. assert (size db ≠ 0).
      { intros Hz%map_size_empty_inv. by rewrite Hz, lookup_empty in Hdb. }
      lia.
Qed.

(** X3: the number of rows after a request is the number before, plus one
    when a create is answered 201 and minus one when a delete succeeds. *)
Theorem row_count_accounting f now db r :
  size (handle f now db r).2
  = (size db
     + (if bool_decide (status (handle f now db r).1 = 201%N) then 1 else 0)
     - (if is_delete r && success (body (handle f now db r).1) then 1 else 0))%nat.
Proof.
  pose proof (handle_row_balance f now db r) as H.
  unfold removed, added in H. simpl in H.
  destruct (is_delete r && success (body (handle f now db r).1));
    destruct (bool_decide (status (handle f now db r).1 = 201%N)); lia.
Qed.

(** ** More on strip *)

Lemma lstrip_id s : edge_is_space (head s) = false → lstrip s = s.
Proof. destruct s as [|c s]; simpl; [done|]. by intros ->. Qed.

Lemma rstrip_id s : edge_is_space (last s) = false → rstrip s = s.
Proof.
  intros Hs. unfold rstrip.
  rewrite lstrip_id by (by rewrite head_reverse). apply reverse_involutive.
Qed.

Lemma strip_id s : stripped s → strip s = s.
Proof. intros [Hh Hl]. unfold strip. rewrite (lstrip_id s Hh). by apply rstrip_id. Qed.

Lemma strip_idempotent s : strip (strip s) = strip s.
Proof. apply strip_id, strip_stripped. Qed.




(** ** Invariants of the table *)

Lemma handle_rows_keyed f now db r :
  rows_keyed db → rows_keyed (handle f now db r).2.
Proof.
  intros Hall. destruct r as [|todo_id|req|todo_id req|todo_id]; simpl; try done.
  - destruct (create_todo_outcome f now db req)
      as [(msg & code & -> & _)|(todo & _ & _ & ->)]; [done|]. simpl.
    intros k t [[<- <-]|[_ Hk]]%lookup_insert_Some; [done|by apply Hall].
  - destruct (update_todo_cases f db todo_id req)
      as [(msg & code & -> & _)|(todo & data & t1 & t2 & t3 & H)]; [done|].
    destruct H as (_ & Hdb & _ & _ & H1 & H2 & H3 & ->). simpl.
    intros k t [[<- <-]|[_ Hk]]%lookup_insert_Some; [|by apply Hall].
    destruct (update_title_frame _ _ _ H1) as (I1 & _).
    destruct (update_description_frame _ _ _ H2) as (I2 & _).
    destruct (update_completed_frame _ _ _ H3) as (I3 & _).
    rewrite I3, I2, I1. by apply Hall.
  - destruct (delete_todo_outcome f db todo_id)
      as [(msg & code & -> & _)|[->|(_ & ->)]]; [done..|]. simpl.
    intros k t [_ Hk]%lookup_delete_Some. by apply Hall.
Qed.

Lemma update_title_present data todo t1 :
  update_title data todo = Go t1 → title_present todo → title_present t1.
Proof.
  intros H Ht. pose proof (update_title_spec data todo) as Hs.
  rewrite H in Hs. destruct Hs as [[_ ->]|(s & _ & _ & Hne & ->)]; [done|].
  unfold title_present. simpl. by rewrite strip_idempotent.
Qed.

Lemma handle_title_present f now db r :
  all_rows title_present db → all_rows title_present (handle f now db r).2.
Proof.
  intros Hall. destruct r as [|todo_id|req|todo_id req|todo_id]; simpl; try done.
  - destruct (create_todo_cases f now db req)
      as [(msg & code & -> & _)|(d & s & dsc & b & H)]; [done|].
    destruct H as (_ & _ & Hs & _ & _ & _ & _ & _ & ->). simpl.
    intros k t [[<- <-]|[_ Hk]]%lookup_insert_Some; [|by eapply Hall].
    unfold title_present; simpl; by rewrite strip_idempotent.
  - destruct (update_todo_cases f db todo_id req)
      as [(msg & code & -> & _)|(todo & data & t1 & t2 & t3 & H)]; [done|].
    destruct H as (_ & Hdb & _ & _ & H1 & H2 & H3 & ->). simpl.
    intros k t [[<- <-]|[_ Hk]]%lookup_insert_Some; [|by eapply Hall].
    destruct (update_description_frame _ _ _ H2) as (_ & _ & T2 & _).
    destruct (update_completed_frame _ _ _ H3) as (_ & _ & T3 & _).
    unfold title_present. rewrite T3, T2.
    eapply update_title_present; [done|]. by eapply Hall.
  - destruct (delete_todo_outcome f db todo_id)
      as [(msg & code & -> & _)|[->|(_ & ->)]]; [done..|]. simpl.
    intros k t [_ Hk]%lookup_delete_Some. by eapply Hall.
Qed.

(** X4: in every table the service can reach, a row is stored under its
    own [id]: the record that get, update and delete find for an id carries
    that id. *)
Theorem reachable_rows_keyed db k todo :
  reachable db → db !! k = Some todo → id todo = k.
Proof.
  intros Hdb. revert k todo. change (rows_keyed db).
  induction Hdb as [|f now db r _ IH]; [by intros k t ?|].
  by apply handle_rows_keyed.
Qed.

(** X5: in every table the service can reach, no title is empty or made of
    white space only. *)
Theorem reachable_title_present db k todo :
  reachable db → db !! k = Some todo →
  title todo ≠ [] ∧ strip (title todo) ≠ [].
Proof.
  intros Hdb Hk.
  assert (all_rows title_present db) as Hall.
  { clear k todo Hk. induction Hdb as [|f now db r _ IH]; [by intros k t ?|].
    by apply handle_title_present. }
  specialize (Hall k todo Hk). split; [|done].
  intros Hnil. apply Hall. by rewrite Hnil.
Qed.

(** ** Round trips *)

(** X6: the record a 201 response of create carries is the one a later get
    of its id answers with, and every row that was in the table is still
    there. *)
Theorem create_then_get f now db req :
  status (create_todo f now db req).1 = 201%N →
  ∃ todo,
    (create_todo f now db req).1 = ok_saved todo "Todo created successfully" 201
    ∧ (∀ f', f' ≠ QueryFault →
         get_todo f' (create_todo f now db req).2 (id todo) = ok_one todo)
    ∧ (∀ k t, db !! k = Some t → (create_todo f now db req).2 !! k = Some t).
Proof.
  intros Hst.
  destruct (create_todo_outcome f now db req)
    as [(msg & code & Heq & Hc)|(todo & Hfresh & Hnow & Heq)]; rewrite Heq in *.
  { simpl in Hst. by_codes Hc. }
  exists todo. simpl. split; [done|]. split.
  - intros f' Hf'. unfold get_todo, query_get.
    destruct f'; simpl; by rewrite ?lookup_insert_eq.
  - intros k t Hk. rewrite lookup_insert_ne; [done|]. intros <-. congruence.
Qed.

(** X7: deleting the record that a create has just added gives back the
    table from before the create. *)
Theorem create_then_delete f now db req :
  status (create_todo f now db req).1 = 201%N →
  ∃ todo,
    data (body (create_todo f now db req).1) = Some (One todo)
    ∧ delete_todo NoFault (create_todo f now db req).2 (id todo)
      = (ok_message "Todo deleted successfully", db).
Proof.
  intros Hst.
  destruct (create_todo_outcome f now db req)
    as [(msg & code & Heq & Hc)|(todo & Hfresh & Hnow & Heq)]; rewrite Heq in *.
  { simpl in Hst. by_codes Hc. }
  exists todo. simpl. split; [done|].
  unfold delete_todo, delete_todo_try, query_get. simpl.
  rewrite lookup_insert_eq. simpl. by rewrite delete_insert_id.
Qed.

(** X8: the record a 200 response of update carries is the one stored: a
    later get of the id answers with the same record. *)
Theorem update_then_get f db todo_id req :
  status (update_todo f db todo_id req).1 = 200%N →
  ∃ todo,
    (update_todo f db todo_id req).1 = ok_saved todo "Todo updated successfully" 200
    ∧ ∀ f', f' ≠ QueryFault →
        get_todo f' (update_todo f db todo_id req).2 todo_id = ok_one todo.
Proof.
  intros Hst.
  destruct (update_todo_cases f db todo_id req)
    as [(msg & code & Heq & Hc)|(todo & data & t1 & t2 & t3 & H)].
  { rewrite Heq in Hst. simpl in Hst. by_codes Hc. }
  destruct H as (_ & _ & _ & _ & _ & _ & _ & ->). exists t3. split; [done|].
  intros f' Hf'. unfold get_todo, query_get. simpl.
  destruct f'; simpl; by rewrite ?lookup_insert_eq.
Qed.

(** ** Update again *)

Lemma strip_nonempty s : strip s ≠ [] → s ≠ [].
Proof. by intros H ->. Qed.

Lemma update_title_again data todo t1 t :
  update_title data todo = Go t1 → title t = title t1 → update_title data t = Go t.
Proof.
  intros H Ht. pose proof (update_title_spec data todo) as Hs. rewrite H in Hs.
  unfold update_title.
  destruct Hs as [[Hin ->]|(s & Hin & Hget & Hne & ->)]; rewrite Hin; simpl;
    [done|].
  rewrite Hget. simpl. destruct s as [|c s]; [done|]. simpl negb. cbn iota.
  destruct (strip (c :: s)) eqn:Es; [done|]. simpl in *. rewrite <- Ht.
  by destruct t.
Qed.

Lemma update_description_again data todo t1 t :
  update_description data todo = Go t1 → description t = description t1 →
  update_description data t = Go t.
Proof.
  intros H Ht. pose proof (update_description_spec data todo) as Hs.
  rewrite H in Hs. unfold update_description.
  destruct Hs as [[Hin ->]|(v & Hin & Hget & Hs)]; rewrite Hin; simpl; [done|].
  rewrite Hget. simpl.
  destruct Hs as [[Hv ->]|(s & -> & ->)]; simpl in Ht.
  - rewrite Hv, <- Ht. by destruct t.
  - destruct s as [|c s].
    + change (description t = []) in Ht. simpl. rewrite <- Ht. by destruct t.
    + cbn -[strip]. rewrite <- Ht. by destruct t.
Qed.

Lemma update_completed_again data todo t1 t :
  update_completed data todo = Go t1 → completed t = completed t1 →
  update_completed data t = Go t.
Proof.
  intros H Ht. pose proof (update_completed_spec data todo) as Hs.
  rewrite H in Hs. unfold update_completed.
  destruct Hs as [[Hin ->]|(b & Hin & Hget & ->)]; rewrite Hin; simpl; [done|].
  rewrite Hget. simpl in *. rewrite <- Ht. by destruct t.
Qed.

(** X9: update is idempotent: sending a request that was answered 200 a
    second time gets the same response and leaves the same table. *)
Theorem update_twice f db todo_id req :
  status (update_todo f db todo_id req).1 = 200%N →
  update_todo f (update_todo f db todo_id req).2 todo_id req
  = update_todo f db todo_id req.
Proof.
  intros Hst.
  destruct (update_todo_cases f db todo_id req)
    as [(msg & code & Heq & Hc)|(todo & data & t1 & t2 & t3 & H)].
  { rewrite Heq in Hst. simpl in Hst. by_codes Hc. }
  destruct H as (-> & Hdb & Hreq & Hdata & H1 & H2 & H3 & ->). simpl.
  destruct (update_description_frame _ _ _ H2) as (_ & _ & T2 & _).
  destruct (update_completed_frame _ _ _ H3) as (_ & _ & T3 & D3 & _).
  unfold update_todo, update_todo_try, query_get. simpl.
  rewrite lookup_insert_eq, Hreq. simpl. rewrite Hdata. simpl.
  rewrite (update_title_again data todo t1 t3 H1) by congruence. simpl.
  rewrite (update_description_again data t1 t2 t3 H2) by congruence. simpl.
  rewrite (update_completed_again data t2 t3 t3 H3) by done. simpl.
  rewrite flush_update_encodable by (by left). simpl.
  by rewrite insert_insert_eq.
Qed.

(** ** The completed flag on update *)

(** X10: a 200 response of update to a body with a [completed] field means
    the field was a boolean and is now the stored value; and a table in
    which every [completed] is a boolean is still such a table after any
    request. *)
Theorem update_completed_is_boolean f now db :
  (∀ todo_id req v,
     status (update_todo f db todo_id req).1 = 200%N →
     field_of "completed" req = Some v →
     ∃ b, v = JBool b
       ∧ completed <$> (update_todo f db todo_id req).2 !! todo_id = Some (JBool b))
  ∧ (∀ r, all_rows bool_completed db →
       all_rows bool_completed (handle f now db r).2).
Proof.
  split.
  - intros todo_id req v Hst Hv.
    destruct (update_todo_cases f db todo_id req)
      as [(msg & code & Heq & Hc)|(todo & data & t1 & t2 & t3 & H)].
    { rewrite Heq in Hst. simpl in Hst. by_codes Hc. }
    destruct H as (_ & _ & Hreq & _ & _ & _ & H3 & ->). simpl.
    destruct (field_of_in _ _ _ _ Hv Hreq) as [Hin Hget].
    pose proof (update_completed_spec data t2) as Hs. rewrite H3 in Hs.
    destruct Hs as [[? _]|(b & _ & ? & ->)]; [congruence|].
    exists b. rewrite lookup_insert_eq. split; [congruence|done].
  - intros r. apply handle_bool_completed.
Qed.

(** ** Bodies that name no field *)

Lemma update_fields_absent data todo :
  py_in (lit "title") data = Go false →
  py_in (lit "description") data = Go false →
  py_in (lit "completed") data = Go false →
  update_title data todo = Go todo
  ∧ update_description data todo = Go todo
  ∧ update_completed data todo = Go todo.
Proof.
  intros H1 H2 H3. unfold update_title, update_description, update_completed.
  by rewrite H1, H2, H3.
Qed.

Lemma update_todo_no_field db todo_id todo data :
  db !! todo_id = Some todo → truthy data = true →
  py_in (lit "title") data = Go false →
  py_in (lit "description") data = Go false →
  py_in (lit "completed") data = Go false →
  update_todo NoFault db todo_id (Json data)
  = (ok_saved todo "Todo updated successfully" 200, db).
Proof.
  intros Hdb Hdata H1 H2 H3.
  destruct (update_fields_absent data todo H1 H2 H3) as (E1 & E2 & E3).
  unfold update_todo, update_todo_try, query_get. simpl. rewrite Hdb. simpl.
  rewrite Hdata. simpl. rewrite E1. simpl. rewrite E2. simpl. rewrite E3. simpl.
  rewrite flush_update_encodable by (by left). simpl.
  by rewrite insert_id.
Qed.

(** X11: an update whose body names none of title, description and
    completed is answered 200 with the stored record and changes nothing,
    be the body a non-empty JSON object without these keys or a non-empty
    JSON array without these strings; an empty object or array is answered
    400 'No data provided'. *)
Theorem update_without_fields db todo_id todo :
  db !! todo_id = Some todo →
  (∀ d, d ≠ [] →
     dict_lookup (lit "title") d = None →
     dict_lookup (lit "description") d = None →
     dict_lookup (lit "completed") d = None →
     update_todo NoFault db todo_id (Json (JObj d))
     = (ok_saved todo "Todo updated successfully" 200, db))
  ∧ (∀ l, l ≠ [] → names_no_field l = true →
       update_todo NoFault db todo_id (Json (JArr l))
       = (ok_saved todo "Todo updated successfully" 200, db))
  ∧ update_todo NoFault db todo_id (Json (JObj []))
    = (failure "No data provided" 400, db)
  ∧ update_todo NoFault db todo_id (Json (JArr []))
    = (failure "No data provided" 400, db).
Proof.
  intros Hdb. split; [|split; [|split]].
  - intros d Hd H1 H2 H3.
    apply update_todo_no_field; simpl; rewrite ?H1, ?H2, ?H3; try done.
    by destruct d.
  - intros l Hl Hn. unfold names_no_field in Hn.
    apply andb_prop in Hn as [[H1 H2]%andb_prop H3].
    apply negb_true_iff in H1, H2, H3.
    apply update_todo_no_field; simpl; rewrite ?H1, ?H2, ?H3; try done.
    by destruct l.
  - unfold update_todo, update_todo_try, query_get. simpl. by rewrite Hdb.
  - unfold update_todo, update_todo_try, query_get. simpl. by rewrite Hdb.
Qed.

(** ** What trimming keeps *)


(** ** The list and the ids *)

(** X13: in a table the service can reach, the list operation never shows
    two records with the same [id]. *)
Theorem get_todos_distinct_ids f db :
  reachable db → f ≠ QueryFault →
  ∃ todos,
    data (body (get_todos f db)) = Some (Many todos) ∧ NoDup (id <$> todos).
Proof.
  intros Hdb Hf. exists (merge_sort newer_first ((map_to_list db).*2)).
  split; [by destruct f|].
  rewrite merge_sort_Permutation.
  assert (id <$> (map_to_list db).*2 = (map_to_list db).*1) as ->.
  { rewrite <- list_fmap_compose. apply Forall_fmap_ext_1, Forall_forall.
    intros [k t] Hin%elem_of_map_to_list. simpl.
    assert (rows_keyed db) as Hkeyed; [|by apply Hkeyed].
    clear k t Hin. induction Hdb as [|f' now db r _ IH]; [by intros k t ?|].
    by apply handle_rows_keyed. }
  apply NoDup_fst_map_to_list.
Qed.

(** ** Answers of 500 *)

Lemma update_todo_500 f db todo_id req :
  status (update_todo f db todo_id req).1 = 500%N → f ≠ NoFault.
Proof.
  intros Hst ->. revert Hst. unfold update_todo, update_todo_try.
  destruct (query_get_cases NoFault db todo_id)
    as [[? _]|[(_ & todo & Hdb & ->)|[(_ & _ & _ & ->)|(_ & _ & _ & ->)]]];
    simpl; try done.
  destruct req as [| |data]; simpl; try done.
  destruct (truthy data); simpl; [|done].
  pose proof (update_title_spec data todo) as H1.
  destruct (update_title data todo) as [t1|r|e]; simpl;
    [|by subst|by destruct e].
  pose proof (update_description_spec data t1) as H2.
  destruct (update_description data t1) as [t2|r|e]; simpl;
    [|done|by destruct e].
  pose proof (update_completed_spec data t2) as H3.
  destruct (update_completed data t2) as [t3|r|e]; simpl;
    [|by subst|by destruct e].
  by destruct (flush_update_cases todo t3) as [-> | ->].
Qed.

(** X14: with a database that is working, a 500 has two origins and no
    other: a get or a delete of an id of [2 ^ 63] or more that is not
    stored, and a create that passes the checks of the handler with a
    [completed] the column refuses; list and update never answer 500.  When
    the query raises, list, get, update and delete answer 500 whatever the
    request is. *)
Theorem status_500_origins now db r :
  (status (handle NoFault now db r).1 = 500%N ↔ fails_without_fault db r = true)
  ∧ (is_create r = false → status (handle QueryFault now db r).1 = 500%N).
Proof.
  split.
  - destruct r as [|todo_id|req|todo_id req|todo_id]; simpl.
    + done.
    + unfold get_todo.
      destruct (query_get_cases NoFault db todo_id)
        as [[? _]|[(_ & todo & Hdb & ->)|[(_ & Hdb & Hlt & ->)|(_ & Hdb & Hge & ->)]]];
        try done; rewrite Hdb; simpl;
        rewrite ?bool_decide_eq_true_2, ?bool_decide_eq_false_2 by (done || lia);
        simpl; split; intros; done.
    + unfold column_takes, sent_completed.
      destruct (create_rejects req) eqn:Hrej.
      { by destruct (create_todo_rejects NoFault now db req Hrej) as [msg ->]. }
      destruct (create_todo_accepts NoFault now db req Hrej)
        as (d & s & dsc & -> & _ & _ & _ & ->). simpl field_of.
      destruct (create_store_cases NoFault now db (strip s) (strip dsc)
                  (default (JBool false) (dict_lookup (lit "completed") d)))
        as [[Hb ->]|(b & Hb & [[_ ->]|[(_ & ? & _)|(_ & _ & ->)]])];
        try done; rewrite Hb; simpl; split; intros; done.
    + split; [|done]. by intros ?%update_todo_500.
    + unfold delete_todo, delete_todo_try.
      destruct (query_get_cases NoFault db todo_id)
        as [[? _]|[(_ & todo & Hdb & ->)|[(_ & Hdb & Hlt & ->)|(_ & Hdb & Hge & ->)]]];
        try done; rewrite Hdb; simpl;
        rewrite ?bool_decide_eq_true_2, ?bool_decide_eq_false_2 by (done || lia);
        simpl; split; intros; done.
  - by destruct r.
Qed.

(** ** The messages of create *)

(** Closes equivalences between two responses and two truth values. *)
Ltac by_iffs := solve [repeat split; intros; simplify_eq/=; done].



(** ** Requests in a row *)

Lemma mark_completed_steps todo :
  get_json mark_completed = Go (JObj [(lit "completed", JBool true)])
  ∧ update_title (JObj [(lit "completed", JBool true)]) todo = Go todo
  ∧ update_description (JObj [(lit "completed", JBool true)]) todo = Go todo
  ∧ update_completed (JObj [(lit "completed", JBool true)]) todo
    = Go (set_completed (JBool true) todo).
Proof. done. Qed.

(** X16: the workflow of [test_full_crud_workflow], for every table and
    every create request that is answered 201: a get of the new id answers
    with the created record, the update that marks it completed answers with
    that record changed in [completed] only, the delete answers 200 and
    gives back the table from before the create, and a get of the id then
    answers 404 (the 500 page, were the id [2 ^ 63] or more). *)
Theorem crud_workflow now db req :
  status (create_todo NoFault now db req).1 = 201%N →
  ∃ todo,
    create_todo NoFault now db req
    = (ok_saved todo "Todo created successfully" 201, <[id todo := todo]> db)
    ∧ get_todo NoFault (<[id todo := todo]> db) (id todo) = ok_one todo
    ∧ update_todo NoFault (<[id todo := todo]> db) (id todo) mark_completed
      = (ok_saved (set_completed (JBool true) todo) "Todo updated successfully" 200,
         <[id todo := set_completed (JBool true) todo]> db)
    ∧ delete_todo NoFault (<[id todo := set_completed (JBool true) todo]> db) (id todo)
      = (ok_message "Todo deleted successfully", db)
    ∧ get_todo NoFault db (id todo)
      = if bool_decide (id todo < id_limit)%N
        then failure (not_found_message (id todo)) 404
        else internal_error.
Proof.
  intros Hst.
  destruct (create_todo_outcome NoFault now db req)
    as [(msg & code & Heq & Hc)|(todo & Hfresh & Hnow & Heq)].
  { rewrite Heq in Hst. simpl in Hst. by_codes Hc. }
  exists todo. split; [done|]. split; [|split; [|split]].
  - unfold get_todo, query_get. simpl. by rewrite lookup_insert_eq.
  - destruct (mark_completed_steps todo) as (E0 & E1 & E2 & E3).
    unfold update_todo, update_todo_try, query_get. cbn -[get_json].
    rewrite lookup_insert_eq. cbn -[get_json]. rewrite E0. cbn -[update_title
      update_description update_completed]. rewrite E1.
    cbn -[update_description update_completed]. rewrite E2.
    cbn -[update_completed]. rewrite E3. simpl.
    rewrite flush_update_encodable by (by left). simpl.
    by rewrite insert_insert_eq.
  - unfold delete_todo, delete_todo_try, query_get. simpl.
    rewrite lookup_insert_eq. simpl. by rewrite delete_insert_id.
  - by apply get_todo_missing.
Qed.

Lemma serve_row_balance db reqs :
  (size (serve db reqs).2 + tally removed (serve db reqs).1
   = size db + tally added (serve db reqs).1)%nat.
Proof.
  revert db. induction reqs as [|[[f now] r] reqs IH]; intros db; simpl; [done|].
  specialize (IH (handle f now db r).2).
  pose proof (handle_row_balance f now db r) as H.
  unfold tally in *. rewrite !filter_cons.
  destruct (removed (r, (handle f now db r).1));
    destruct (added (r, (handle f now db r).1));
    repeat case_decide; try done; simpl; lia.
Qed.

(** X17: after any run of requests the list operation counts the rows the
    run started with, plus one for every 201 response of the run, minus one
    for every successful delete. *)
Theorem count_after_run db reqs :
  ∃ n,
    count (body (get_todos NoFault (serve db reqs).2)) = Some n
    ∧ (n + tally removed (serve db reqs).1
       = size db + tally added (serve db reqs).1)%nat.
Proof.
  exists (size (serve db reqs).2). split; [|apply serve_row_balance].
  unfold get_todos. simpl. f_equal.
  by rewrite merge_sort_Permutation, length_fmap, length_map_to_list.
Qed.

(** ** The messages of update *)

Lemma truthy_obj_of_lookup k d v : dict_lookup k d = Some v → truthy (JObj d) = true.
Proof. by destruct d. Qed.

(** Closes such an equivalence when the request has reached the store. *)
Ltac by_store :=
  match goal with
  | Hc : ∀ t r, _ ∨ _ |- context [flush_update ?a ?b ≫= _] =>
      match goal with
      | |- context [Go (?r, _)] => destruct (Hc b r) as [-> |[-> | ->]]; by_iffs
      end
  end.

(** X18: for an update whose target exists, 'Title cannot be empty' is the
    answer exactly when the body is an object whose title is falsy or a
    string of white space, and 'Completed must be a boolean value' exactly
    when the title and the description pass and completed is present and
    not a boolean: the title is judged first and completed last. *)
Theorem update_error_messages f db todo_id todo req :
  f ≠ QueryFault → db !! todo_id = Some todo →
  (update_todo f db todo_id req = (failure "Title cannot be empty" 400, db)
   ↔ update_title_rejected req = true)
  ∧ (update_todo f db todo_id req
     = (failure "Completed must be a boolean value" 400, db)
     ↔ update_completed_rejected req = true).
Proof.
  intros Hf Hdb.
  unfold update_title_rejected, update_completed_rejected, update_todo,
    update_todo_try, update_title, update_description, update_completed.
  assert (query_get f db todo_id = Go (Some todo)) as ->
    by (unfold query_get; destruct f; simpl; rewrite ?Hdb; done).
  assert (∀ t (r : response),
            (_ ← flush_update todo t;
             commit f (<[todo_id := t]> db) ≫= λ db', Go (r, db'))
            = Go (r, <[todo_id := t]> db)
            ∨ (_ ← flush_update todo t;
               commit f (<[todo_id := t]> db) ≫= λ db', Go (r, db'))
              = Raise SQLAlchemyError
            ∨ (_ ← flush_update todo t;
               commit f (<[todo_id := t]> db) ≫= λ db', Go (r, db'))
              = Raise UnicodeEncodeError) as Hcommit.
  { intros t r. destruct (flush_update_cases todo t) as [-> | ->]; simpl;
      [|by eauto]. destruct f; simpl; eauto. }
  destruct req as [| |j]; cbn -[truthy dict_lookup strip commit]; [by_iffs..|].
  destruct (truthy j) eqn:Hj; cbn -[truthy dict_lookup strip commit];
    [|destruct j as [| | | | | |[|]]; by_iffs].
  destruct j as [| | | | |l|d]; try by_iffs.
  - (* a string *)
    cbn -[truthy strip commit str_contains].
    destruct (str_contains (lit "title") s); cbn -[commit]; [by_iffs|].
    destruct (str_contains (lit "description") s); cbn -[commit]; [by_iffs|].
    destruct (str_contains (lit "completed") s); cbn -[commit]; [by_iffs|].
    destruct (Hcommit todo (ok_saved todo "Todo updated successfully" 200))
      as [-> |[-> | ->]]; by_iffs.
  - (* an array *)
    cbn -[truthy strip commit existsb].
    destruct (existsb (eq_str (lit "title")) l); cbn -[commit]; [by_iffs|].
    destruct (existsb (eq_str (lit "description")) l); cbn -[commit]; [by_iffs|].
    destruct (existsb (eq_str (lit "completed")) l); cbn -[commit]; [by_iffs|].
    destruct (Hcommit todo (ok_saved todo "Todo updated successfully" 200))
      as [-> |[-> | ->]]; by_iffs.
  - (* an object *)
    cbn -[truthy dict_lookup strip commit]. rewrite ?Hj.
    cbn -[truthy dict_lookup strip commit].
    destruct (dict_lookup (lit "title") d) as [t|]; cbn -[truthy strip commit].
    + destruct (truthy t) eqn:Ht; cbn -[truthy strip commit];
        [|destruct t as [| | | |[|]| |]; by_iffs].
      destruct t as [| | | |s| |]; try by_iffs. cbn -[truthy strip commit].
      destruct (strip s) eqn:Es; cbn -[truthy strip commit];
        rewrite ?bool_decide_eq_true_2, ?bool_decide_eq_false_2 by done;
        [by_iffs|]. cbn -[truthy strip commit].
      destruct (dict_lookup (lit "description") d) as [v|];
        cbn -[truthy strip commit].
      * destruct (truthy v) eqn:Hv; cbn -[truthy strip commit].
        -- destruct v as [| | | |s'| |]; try by_iffs. cbn -[truthy strip commit].
           destruct (dict_lookup (lit "completed") d) as [[| | | | | |]|];
             cbn -[commit]; try by_iffs;
             by_store.
        -- destruct (dict_lookup (lit "completed") d) as [[| | | | | |]|];
             cbn -[commit]; try by_iffs; by_store.
      * destruct (dict_lookup (lit "completed") d) as [[| | | | | |]|];
          cbn -[commit]; try by_iffs; by_store.
    + destruct (dict_lookup (lit "description") d) as [v|];
        cbn -[truthy strip commit].
      * destruct (truthy v) eqn:Hv; cbn -[truthy strip commit].
        -- destruct v as [| | | |s'| |]; try by_iffs. cbn -[truthy strip commit].
           destruct (dict_lookup (lit "completed") d) as [[| | | | | |]|];
             cbn -[commit]; try by_iffs; by_store.
        -- destruct (dict_lookup (lit "completed") d) as [[| | | | | |]|];
             cbn -[commit]; try by_iffs; by_store.
      * destruct (dict_lookup (lit "completed") d) as [[| | | | | |]|];
          cbn -[commit]; try by_iffs; by_store.
Qed.

End Service.

(** * The statements at the fixtures of test_app.py *)

(** The closed statements are evaluated with the column that refuses every
    value that is not a [bool], unless another one is named. *)

Lemma update_400_changes_nothing_witness :
  status (update_todo NoFault sample 1 update_title_and_yes).1 = 400%N
  ∧ (update_todo NoFault sample 1 update_title_and_yes).2 = sample.
Proof.
  split; [reflexivity|].
  apply (update_400_changes_nothing NoFault sample 1 update_title_and_yes).
  reflexivity.
Defined.

Lemma update_touches_only_sent_fields_witness :
  ∃ todo',
    (update_todo NoFault sample 1 (obj [("completed", JBool true)])).2 !! 1%N
    = Some todo'
    ∧ id todo' = 1%N ∧ created_at todo' = 10%Z.
Proof.
  destruct (update_touches_only_sent_fields NoFault sample 1
              (obj [("completed", JBool true)])
              (mkTodo 1 (lit "Test Todo") (lit "Test Description") (JBool false) 10)
              eq_refl)
    as (todo' & Hk & Hid & Hat & _).
  exists todo'. split; [exact Hk|]. split; [exact Hid|exact Hat].
Defined.

Lemma update_missing_id_is_404_witness :
  update_todo NoFault ∅ 999 update_title_and_yes
  = (failure (not_found_message 999) 404, ∅)
  ∧ update_todo CommitFault ∅ 999 Malformed
    = (failure (not_found_message 999) 404, ∅)
  ∧ update_todo NoFault ∅ id_limit update_title_and_yes
    = (failure "Invalid request data" 400, ∅).
Proof.
  split; [|split].
  - apply (update_missing_id_is_404 NoFault ∅ 999 update_title_and_yes);
      [discriminate|reflexivity].
  - apply (update_missing_id_is_404 CommitFault ∅ 999 Malformed);
      [discriminate|reflexivity].
  - apply (update_missing_id_is_404 NoFault ∅ id_limit update_title_and_yes);
      [discriminate|reflexivity].
Defined.

(** C10 as worded fails for an id of [2 ^ 63] or more: no row has it, the
    lookup raises, and the answer is 400, not 404. *)
Lemma update_huge_id_is_400 :
  (∅ : table) !! id_limit = None
  ∧ update_todo NoFault ∅ id_limit update_title_and_yes
    = (failure "Invalid request data" 400, ∅)
  ∧ update_todo NoFault sample id_limit NoBody
    = (failure "Invalid request data" 400, sample).
Proof. by vm_compute. Qed.

Lemma delete_then_404_witness :
  status (delete_todo NoFault sample 1).1 = 200%N
  ∧ status (get_todo NoFault (delete_todo NoFault sample 1).2 1) = 404%N
  ∧ status (delete_todo NoFault (delete_todo NoFault sample 1).2 1).1 = 404%N.
Proof.
  destruct (delete_then_404 sample 1
              (mkTodo 1 (lit "Test Todo") (lit "Test Description") (JBool false) 10)
              eq_refl)
    as (H200 & _ & _ & _ & H404).
  split; [exact H200|].
  apply (H404 NoFault). discriminate.
Defined.

Lemma get_todos_newest_first_witness :
  ∃ todos,
    get_todos NoFault two_todos = ok_list todos
    ∧ length todos = 2
    ∧ StronglySorted newer_first todos.
Proof.
  destruct (get_todos_newest_first NoFault two_todos)
    as (todos & Heq & _ & _ & _ & _ & _ & Hlen & Hsorted); [discriminate|].
  exists todos. split; [exact Heq|]. split; [exact Hlen|exact Hsorted].
Defined.

Lemma null_body_is_no_data_witness :
  create_todo refuses NoFault 5 sample (Json JNull)
  = (failure "No data provided" 400, sample)
  ∧ create_todo refuses NoFault 5 sample NoBody
    = (failure "Invalid request data" 400, sample)
  ∧ update_todo NoFault sample 1 (Json JNull)
    = (failure "No data provided" 400, sample)
  ∧ update_todo NoFault sample 1 NoBody
    = (failure "Invalid request data" 400, sample)
  ∧ update_todo NoFault sample 999 (Json JNull)
    = (failure (not_found_message 999) 404, sample)
  ∧ update_todo NoFault sample 999 NoBody
    = (failure (not_found_message 999) 404, sample).
Proof.
  destruct (null_body_is_no_data refuses) as (Hcreate & Hfound & Hmissing).
  destruct (Hcreate NoFault 5%Z sample) as [H1 H2].
  destruct (Hfound NoFault sample 1%N sample_row) as [H3 H4];
    [discriminate|reflexivity|].
  destruct (Hmissing NoFault sample 999%N) as [H5 H6];
    [discriminate|reflexivity|reflexivity|].
  repeat split; assumption.
Defined.

Lemma create_todo_status_witness :
  (∃ todo,
     create_todo refuses NoFault 5 ∅ create_minimal
     = (ok_saved todo "Todo created successfully" 201, <[id todo := todo]> ∅)
     ∧ title todo = lit "Minimal Todo"
     ∧ description todo = [] ∧ completed todo = JBool false)
  ∧ status (create_todo refuses NoFault 5 ∅ create_completed_yes).1 = 500%N
  ∧ status (create_todo refuses NoFault 5 ∅ create_description_5).1 = 400%N
  ∧ (create_todo refuses NoFault 5 sample create_description_5).2 = sample.
Proof.
  split; [|split; [|split]].
  - destruct (create_todo_status refuses NoFault 5 ∅ create_minimal)
      as (_ & _ & _ & H).
    destruct H as (todo & b & Heq & _ & Ht & _ & _ & _ & Hd & Hc);
      [reflexivity|reflexivity|reflexivity|discriminate|].
    exists todo. split; [exact Heq|]. split; [exact Ht|].
    split; [apply Hd|apply Hc]; reflexivity.
  - destruct (create_todo_status refuses NoFault 5 ∅ create_completed_yes)
      as (_ & [_ H] & _).
    apply H. reflexivity.
  - destruct (create_todo_status refuses NoFault 5 ∅ create_description_5)
      as ([_ H] & _).
    apply H. reflexivity.
  - destruct (create_todo_status refuses NoFault 5 sample create_description_5)
      as (_ & _ & H & _).
    apply H. left. reflexivity.
Defined.

(** C7 as worded fails when the description is not a string: the body is
    an object with a good title, and the answer is 400.  It fails again
    when [completed] is a value the column refuses: the answer is 500, not
    201, with a database that is working. *)
Lemma create_description_5_is_400 :
  spec_create_rejects create_description_5 = false
  ∧ create_todo refuses NoFault 5 ∅ create_description_5
    = (failure "Invalid request data" 400, ∅)
  ∧ spec_create_rejects create_completed_yes = false
  ∧ create_todo refuses NoFault 5 ∅ create_completed_yes
    = (failure "Failed to create todo" 500, ∅).
Proof. repeat split; reflexivity. Qed.

Lemma completed_is_boolean_in_store_witness :
  update_todo NoFault sample 1 (obj [("completed", jstr "not a boolean")])
  = (failure "Completed must be a boolean value" 400, sample)
  ∧ create_todo refuses NoFault 5 ∅ create_completed_yes
    = (failure "Failed to create todo" 500, ∅)
  ∧ create_todo takes_bits NoFault 5 ∅ create_completed_1
    = (ok_saved (mkTodo 1 (lit "x") [] (JBool true) 5)
         "Todo created successfully" 201,
       {[ 1%N := mkTodo 1 (lit "x") [] (JBool true) 5 ]})
  ∧ isinstance_bool
      (from_option completed JNull
         ((create_todo takes_bits NoFault 5 ∅ create_completed_1).2 !! 1%N))
    = true.
Proof.
  split; [|split; [|split]].
  - destruct (completed_is_boolean_in_store refuses) as (_ & H & _).
    apply (H NoFault sample 1%N sample_row (jstr "not a boolean"));
      [discriminate|reflexivity|reflexivity].
  - destruct (completed_is_boolean_in_store refuses) as (_ & _ & _ & H).
    pose proof (H NoFault 5%Z ∅ (lit "x") (jstr "yes")) as H1.
    change (refuses (jstr "yes")) with (@None bool) in H1.
    apply H1; [discriminate|reflexivity].
  - destruct (completed_is_boolean_in_store takes_bits) as (_ & _ & _ & H).
    pose proof (H NoFault 5%Z ∅ (lit "x") (JInt 1)) as H1.
    change (takes_bits (JInt 1)) with (Some true) in H1.
    apply H1; [discriminate|reflexivity|reflexivity|discriminate].
  - destruct (completed_is_boolean_in_store takes_bits) as (H & _).
    apply (H (create_todo takes_bits NoFault 5 ∅ create_completed_1).2 1%N
             (mkTodo 1 (lit "x") [] (JBool true) 5)).
    + apply (reachable_step takes_bits NoFault 5 ∅ (CreateTodo create_completed_1)).
      constructor.
    + reflexivity.
Defined.

(** C1 as worded fails on create: a [completed] that is not a boolean is
    not answered 400.  The column refuses the string and the answer is 500;
    a column that takes [1] for [True] stores the boolean and the answer is
    201. *)
Lemma create_completed_yes_is_500 :
  create_todo refuses NoFault 5 ∅ create_completed_yes
  = (failure "Failed to create todo" 500, ∅)
  ∧ status (create_todo takes_bits NoFault 5 ∅ create_completed_1).1 = 201%N.
Proof. split; reflexivity. Qed.

Lemma text_is_stripped_on_write_witness :
  (∃ todo,
     create_todo refuses NoFault 5 ∅ create_padded
     = (ok_saved todo "Todo created successfully" 201, <[id todo := todo]> ∅)
     ∧ title todo = lit "Trimmed Title"
     ∧ description todo = lit "Trimmed Description")
  ∧ (∃ todo,
       update_todo NoFault sample 1 update_padded
       = (ok_saved todo "Todo updated successfully" 200, <[1%N := todo]> sample)
       ∧ title todo = lit "Trimmed Update"
       ∧ description todo = lit "Trimmed Desc")
  ∧ update_todo NoFault sample 1 (obj [("title", jstr "   ")])
    = (failure "Title cannot be empty" 400, sample)
  ∧ (∃ todo,
       (create_todo refuses NoFault 5 ∅ create_padded).2 !! 1%N = Some todo
       ∧ stripped (title todo) ∧ stripped (description todo)).
Proof.
  destruct (text_is_stripped_on_write refuses)
    as (_ & _ & _ & Hempty & Hreach & Hcreate & Hupdate).
  split; [|split; [|split]].
  - destruct (Hcreate NoFault 5%Z ∅ (lit "  Trimmed Title  ")
                (lit "  Trimmed Description  "))
      as (todo & Heq & _ & Ht & Hd);
      [discriminate|discriminate|reflexivity|reflexivity|].
    exists todo. split; [exact Heq|]. split; [exact Ht|exact Hd].
  - destruct (Hupdate sample 1%N sample_row (lit "  Trimmed Update  ")
                (lit "  Trimmed Desc  "))
      as (todo & Heq & Ht & Hd & _);
      [reflexivity|discriminate|reflexivity|reflexivity|].
    exists todo. split; [exact Heq|]. split; [exact Ht|exact Hd].
  - apply (Hempty NoFault sample 1%N sample_row (obj [("title", jstr "   ")])
             (lit "   ")); [discriminate|reflexivity|reflexivity|reflexivity].
  - exists (mkTodo 1 (lit "Trimmed Title") (lit "Trimmed Description")
              (JBool false) 5).
    split; [reflexivity|].
    apply (Hreach (create_todo refuses NoFault 5 ∅ create_padded).2 1%N).
    + apply (reachable_step refuses NoFault 5 ∅ (CreateTodo create_padded)).
      constructor.
    + reflexivity.
Defined.

(** The scenarios of [test_app.py], evaluated. *)

Example test_get_todos_ordered_by_date :
  data (body (get_todos NoFault two_todos))
  = Some (Many [mkTodo 2 (lit "Second Todo") [] (JBool false) 2;
                mkTodo 1 (lit "First Todo") [] (JBool false) 1]).
Proof. reflexivity. Qed.

Example test_get_nonexistent_todo :
  get_todo NoFault ∅ 999 = failure "Todo with id 999 not found" 404.
Proof. reflexivity. Qed.

Example test_create_todo_no_title :
  (create_todo refuses NoFault 5 ∅ (obj [("description", jstr "No title")])).1
  = failure "Title is required and cannot be empty" 400.
Proof. reflexivity. Qed.

Example test_create_todo_empty_title :
  (create_todo refuses NoFault 5 ∅ (obj [("title", jstr "   ")])).1
  = failure "Title is required and cannot be empty" 400.
Proof. reflexivity. Qed.

Example test_update_todo_invalid_completed_type :
  (update_todo NoFault sample 1 (obj [("completed", jstr "not a boolean")])).1
  = failure "Completed must be a boolean value" 400.
Proof. reflexivity. Qed.

Example test_update_todo_whitespace_trimming :
  (update_todo NoFault sample 1 update_padded).1
  = ok_saved (mkTodo 1 (lit "Trimmed Update") (lit "Trimmed Desc") (JBool false) 10)
      "Todo updated successfully" 200.
Proof. reflexivity. Qed.

(** With a good title and a [completed] that is not a [bool], the title is
    assigned to the session's object before the check on [completed]
    returns; the object is dropped with the session and the table keeps the
    old title. *)
Example update_title_assigned_then_rejected :
  (∃ data todo,
     get_json update_title_and_yes = Go data ∧ sample !! 1%N = Some todo
     ∧ update_title data todo = Go (set_title (lit "New") todo)
     ∧ update_completed data (set_title (lit "New") todo)
       = Return (failure "Completed must be a boolean value" 400))
  ∧ title <$> (update_todo NoFault sample 1 update_title_and_yes).2 !! 1%N
    = Some (lit "Test Todo").
Proof. split; [by do 2 eexists|reflexivity]. Qed.

(** A body that is a JSON array passes every [in] test and changes
    nothing. *)
Example update_with_array_body :
  (update_todo NoFault sample 1 (Json (JArr [JInt 1]))).1
  = ok_saved (mkTodo 1 (lit "Test Todo") (lit "Test Description") (JBool false) 10)
      "Todo updated successfully" 200.
Proof. reflexivity. Qed.

(** A request without a body: [get_json] raises and both handlers answer
    'Invalid request data'. *)
Example request_without_body :
  create_todo refuses NoFault 5 sample NoBody
  = (failure "Invalid request data" 400, sample)
  ∧ update_todo NoFault sample 1 NoBody
    = (failure "Invalid request data" 400, sample).
Proof. split; reflexivity. Qed.

(** An id the database cannot look up: get and delete answer with the
    page of [internal_error], which has no [success] key; update answers
    400. *)
Example lookup_of_huge_id :
  get_todo NoFault sample id_limit = internal_error
  ∧ delete_todo NoFault sample id_limit = (internal_error, sample)
  ∧ update_todo NoFault sample id_limit mark_completed
    = (failure "Invalid request data" 400, sample)
  ∧ success_key (body internal_error) = None.
Proof. repeat split; reflexivity. Qed.

(** A title with a lone surrogate cannot be handed to the database: create
    and update answer 400 and store nothing. *)
Example title_with_lone_surrogate :
  create_todo refuses NoFault 5 sample (Json (JObj [(lit "title", JStr [55296%N])]))
  = (failure "Invalid request data" 400, sample)
  ∧ update_todo NoFault sample 1 (Json (JObj [(lit "title", JStr [55296%N])]))
    = (failure "Invalid request data" 400, sample).
Proof. split; reflexivity. Qed.

(** * Further properties, at the fixtures *)

Lemma failed_request_keeps_table_witness :
  success (body (handle refuses CommitFault 5 sample (DeleteTodo 1)).1) = false
  ∧ (handle refuses CommitFault 5 sample (DeleteTodo 1)).2 = sample.
Proof.
  split; [reflexivity|].
  apply (failed_request_keeps_table refuses CommitFault 5 sample (DeleteTodo 1)).
  reflexivity.
Defined.

Lemma reachable_rows_keyed_witness :
  ∃ todo, (create_todo refuses NoFault 5 ∅ create_padded).2 !! 1%N = Some todo
    ∧ id todo = 1%N.
Proof.
  exists (mkTodo 1 (lit "Trimmed Title") (lit "Trimmed Description") (JBool false) 5).
  split; [reflexivity|].
  apply (reachable_rows_keyed refuses
           (create_todo refuses NoFault 5 ∅ create_padded).2 1%N
           (mkTodo 1 (lit "Trimmed Title") (lit "Trimmed Description")
              (JBool false) 5)
           (reachable_step refuses NoFault 5 ∅ (CreateTodo create_padded)
              (reachable_empty refuses))
           eq_refl).
Defined.

Lemma reachable_title_present_witness :
  ∃ todo, (create_todo refuses NoFault 5 ∅ create_padded).2 !! 1%N = Some todo
    ∧ bool_decide (title todo = []) = false
    ∧ bool_decide (strip (title todo) = []) = false.
Proof.
  exists (mkTodo 1 (lit "Trimmed Title") (lit "Trimmed Description") (JBool false) 5).
  split; [reflexivity|].
  destruct (reachable_title_present refuses
              (create_todo refuses NoFault 5 ∅ create_padded).2 1%N
              (mkTodo 1 (lit "Trimmed Title") (lit "Trimmed Description")
                 (JBool false) 5)
              (reachable_step refuses NoFault 5 ∅ (CreateTodo create_padded)
                 (reachable_empty refuses))
              eq_refl) as [H1 H2].
  split; by apply bool_decide_eq_false.
Defined.

Lemma create_then_get_witness :
  ∃ todo,
    (create_todo refuses NoFault 5 sample create_minimal).1
    = ok_saved todo "Todo created successfully" 201
    ∧ get_todo NoFault (create_todo refuses NoFault 5 sample create_minimal).2
        (id todo)
      = ok_one todo
    ∧ (create_todo refuses NoFault 5 sample create_minimal).2 !! 1%N
      = Some sample_row.
Proof.
  destruct (create_then_get refuses NoFault 5 sample create_minimal eq_refl)
    as (todo & Heq & Hget & Hkeep).
  exists todo. split; [exact Heq|]. split.
  - apply (Hget NoFault). discriminate.
  - apply (Hkeep 1%N sample_row). reflexivity.
Defined.

Lemma create_then_delete_witness :
  ∃ todo,
    data (body (create_todo refuses NoFault 5 sample create_minimal).1)
    = Some (One todo)
    ∧ delete_todo NoFault (create_todo refuses NoFault 5 sample create_minimal).2
        (id todo)
      = (ok_message "Todo deleted successfully", sample).
Proof.
  apply (create_then_delete refuses NoFault 5 sample create_minimal). reflexivity.
Defined.

Lemma update_then_get_witness :
  ∃ todo,
    (update_todo NoFault sample 1 mark_completed).1
    = ok_saved todo "Todo updated successfully" 200
    ∧ get_todo NoFault (update_todo NoFault sample 1 mark_completed).2 1 = ok_one todo.
Proof.
  destruct (update_then_get NoFault sample 1 mark_completed eq_refl)
    as (todo & Heq & Hget).
  exists todo. split; [exact Heq|]. apply (Hget NoFault). discriminate.
Defined.

Lemma update_twice_witness :
  update_todo NoFault (update_todo NoFault sample 1 mark_completed).2 1 mark_completed
  = update_todo NoFault sample 1 mark_completed.
Proof. apply (update_twice NoFault sample 1 mark_completed). reflexivity. Defined.

Lemma update_completed_is_boolean_witness :
  ∃ b, JBool true = JBool b
    ∧ completed <$> (update_todo NoFault sample 1 mark_completed).2 !! 1%N
      = Some (JBool b).
Proof.
  destruct (update_completed_is_boolean refuses NoFault 5 sample) as [H _].
  apply (H 1%N mark_completed (JBool true)); reflexivity.
Defined.

Lemma update_without_fields_witness :
  update_todo NoFault sample 1 array_body
  = (ok_saved sample_row "Todo updated successfully" 200, sample)
  ∧ update_todo NoFault sample 1 (Json (JObj []))
    = (failure "No data provided" 400, sample).
Proof.
  destruct (update_without_fields sample 1 sample_row eq_refl)
    as (_ & Harr & Hobj & _).
  split; [|exact Hobj].
  apply (Harr [JInt 1]); [discriminate|reflexivity].
Defined.


Lemma get_todos_distinct_ids_witness :
  ∃ todos,
    data (body (get_todos NoFault (create_todo refuses NoFault 5 ∅ create_padded).2))
    = Some (Many todos)
    ∧ NoDup (id <$> todos).
Proof.
  apply (get_todos_distinct_ids refuses NoFault
           (create_todo refuses NoFault 5 ∅ create_padded).2).
  - apply (reachable_step refuses NoFault 5 ∅ (CreateTodo create_padded)).
    constructor.
  - discriminate.
Defined.

Lemma crud_workflow_witness :
  ∃ todo,
    create_todo refuses NoFault 5 sample create_minimal
    = (ok_saved todo "Todo created successfully" 201, <[id todo := todo]> sample)
    ∧ update_todo NoFault (<[id todo := todo]> sample) (id todo) mark_completed
      = (ok_saved (set_completed (JBool true) todo) "Todo updated successfully" 200,
         <[id todo := set_completed (JBool true) todo]> sample)
    ∧ delete_todo NoFault (<[id todo := set_completed (JBool true) todo]> sample)
        (id todo)
      = (ok_message "Todo deleted successfully", sample)
    ∧ get_todo NoFault sample 2 = failure (not_found_message 2) 404.
Proof.
  destruct (crud_workflow refuses 5 sample create_minimal eq_refl)
    as (todo & H1 & _ & H3 & H4 & H5).
  exists todo. split; [exact H1|]. split; [exact H3|]. split; [exact H4|].
  assert (id todo = 2%N) as Hid.
  { pose proof (f_equal (λ out, from_option id 0%N
                                  (match data (body out.1) with
                                   | Some (One t) => Some t
                                   | _ => None
                                   end)) H1) as E.
    symmetry. exact E. }
  rewrite Hid in H5. exact H5.
Defined.

(** [test_multiple_todos_management]: five creates, then the list counts
    five. *)
Example test_multiple_todos_management :
  Forall (λ e, status e.2 = 201%N) (serve refuses ∅ five_creates).1
  ∧ count (body (get_todos NoFault (serve refuses ∅ five_creates).2)) = Some 5.
Proof. split; [by repeat constructor|reflexivity]. Qed.

Lemma update_error_messages_witness :
  update_todo NoFault sample 1 update_title_and_yes
  = (failure "Completed must be a boolean value" 400, sample)
  ∧ update_todo NoFault sample 1
      (obj [("title", jstr "   "); ("completed", jstr "yes")])
    = (failure "Title cannot be empty" 400, sample).
Proof.
  split.
  - apply (update_error_messages NoFault sample 1 sample_row update_title_and_yes);
      [discriminate|reflexivity|reflexivity].
  - apply (update_error_messages NoFault sample 1 sample_row
             (obj [("title", jstr "   "); ("completed", jstr "yes")]));
      [discriminate|reflexivity|reflexivity].
Defined.

Lemma status_500_origins_witness :
  status (handle refuses NoFault 5 sample (GetTodo id_limit)).1 = 500%N
  ∧ status (handle refuses NoFault 5 sample (DeleteTodo id_limit)).1 = 500%N
  ∧ status (handle refuses NoFault 5 sample (CreateTodo create_completed_yes)).1
    = 500%N
  ∧ fails_without_fault takes_bits sample (CreateTodo create_completed_1) = false
  ∧ status (handle refuses QueryFault 5 sample (UpdateTodo 1 mark_completed)).1
    = 500%N.
Proof.
  split; [|split; [|split; [|split]]].
  - destruct (status_500_origins refuses 5 sample (GetTodo id_limit))
      as [[_ H] _].
    apply H. reflexivity.
  - destruct (status_500_origins refuses 5 sample (DeleteTodo id_limit))
      as [[_ H] _].
    apply H. reflexivity.
  - destruct (status_500_origins refuses 5 sample (CreateTodo create_completed_yes))
      as [[_ H] _].
    apply H. reflexivity.
  - reflexivity.
  - destruct (status_500_origins refuses 5 sample (UpdateTodo 1 mark_completed))
      as [_ H].
    apply H. reflexivity.
Defined.
